(** * The Duo authentication gateway (app.py), embedded in Rocq

    The Flask application of [app.py] has five view functions around a
    three-step redirect handshake.  They are embedded here as functions on an
    explicit state: the Flask session (a dictionary), the world of the
    identity provider (the [duo_universal] client, an external collaborator)
    and the log of the calls made to it. *)

From Stdlib Require Import ZArith Ascii.
From stdpp Require Import gmap strings list fin_maps.

Local Open Scope N_scope.
Set Warnings "-register-all".

(** ** Python strings

    A Python [str] is a sequence of Unicode code points.  Literals of the
    program text are written with [u], which reads each character of an ASCII
    literal as its code point. *)

Abbreviation pystr := (list N).

Definition u (s : string) : pystr :=
  N_of_ascii <$> String.list_ascii_of_string s.

Arguments u : simpl never.

(** The code points on which [str.isspace] holds, which [str.strip] removes
    when called without argument. *)
Definition WHITESPACE : list N :=
  [ 0x09; 0x0A; 0x0B; 0x0C; 0x0D; 0x1C; 0x1D; 0x1E; 0x1F; 0x20; 0x85; 0xA0;
    0x1680; 0x2000; 0x2001; 0x2002; 0x2003; 0x2004; 0x2005; 0x2006; 0x2007;
    0x2008; 0x2009; 0x200A; 0x2028; 0x2029; 0x202F; 0x205F; 0x3000 ].

Definition isspace (c : N) : bool := bool_decide (c ∈ WHITESPACE).

Fixpoint lstrip (s : pystr) : pystr :=
  match s with
  | c :: s' => if isspace c then lstrip s' else s
  | [] => []
  end.

Definition rstrip (s : pystr) : pystr := reverse (lstrip (reverse s)).

(** [s.strip()] *)
Definition strip (s : pystr) : pystr := rstrip (lstrip s).

(** [sep.join(l)] *)
Fixpoint join (sep : pystr) (l : list pystr) : pystr :=
  match l with
  | [] => []
  | [x] => x
  | x :: l' => x ++ sep ++ join sep l'
  end.

(** ** Python values

    The values that pass through the gateway are those a JSON document or a
    Flask session holds; of the numbers, the integers. *)

Inductive PyVal : Type :=
| PyNone
| PyBool (b : bool)
| PyInt (n : Z)
| PyStr (s : pystr)
| PyList (l : list PyVal)
| PyDict (d : list (pystr * PyVal)).

(** Truth value of an object, as [if v:] and [not v] test it. *)
Definition truthy (v : PyVal) : bool :=
  match v with
  | PyNone => false
  | PyBool b => b
  | PyInt n => negb (n =? 0)%Z
  | PyStr s => match s with [] => false | _ => true end
  | PyList l => match l with [] => false | _ => true end
  | PyDict d => match d with [] => false | _ => true end
  end.

(** An optional string ([str] or [None]) as a value. *)
Definition py_opt (o : option pystr) : PyVal :=
  match o with Some s => PyStr s | None => PyNone end.

(** [a != v] for [a] a [str] or [None]: a string is equal to the same string
    only, [None] to [None] only. *)
Definition py_ne (a : option pystr) (v : PyVal) : bool :=
  match a, v with
  | Some s, PyStr t => negb (bool_decide (s = t))
  | None, PyNone => false
  | _, _ => true
  end.

(** [d.get(key, default)] on a dictionary, kept in insertion order. *)
Fixpoint dict_get (d : list (pystr * PyVal)) (key : pystr) (default : PyVal) : PyVal :=
  match d with
  | [] => default
  | (k, v) :: d' => if bool_decide (k = key) then v else dict_get d' key default
  end.

(** [isinstance(v, dict)] *)
Definition isinstance_dict (v : PyVal) : bool :=
  match v with PyDict _ => true | _ => false end.

(** ** Requests and responses *)

(** [request.form] and [request.args] are multi-dictionaries of strings;
    [get] returns the first value of a key. *)
Abbreviation MultiDict := (list (pystr * pystr)).

Fixpoint multi_get (d : MultiDict) (key : pystr) : option pystr :=
  match d with
  | [] => None
  | (k, v) :: d' => if bool_decide (k = key) then Some v else multi_get d' key
  end.

Record Request := mkRequest {
  method : pystr;
  form : MultiDict;
  args : MultiDict
}.

(** What a view function returns: a rendered template with its keyword
    arguments and status, or a redirect. *)
Inductive Response : Type :=
| Rendered (template : string) (context : list (string * PyVal)) (status : Z)
| Redirect (location : pystr) (status : Z).

Definition status_code (r : Response) : Z :=
  match r with Rendered _ _ st => st | Redirect _ st => st end.

(** [render_template(name, **context)], status 200 unless the view returns
    a pair. *)
Definition render_template (name : string) (context : list (string * PyVal)) : Response :=
  Rendered name context 200.

Definition with_status (r : Response) (st : Z) : Response :=
  match r with
  | Rendered t c _ => Rendered t c st
  | Redirect l _ => Redirect l st
  end.

(** [redirect(location)] *)
Definition redirect (location : pystr) : Response := Redirect location 302.

(** The routes, as the decorators declare them: one endpoint per view
    function, named after it.  [/login] and [/logout] are declared for POST,
    the others for the default GET; which request reaches which view is
    Flask's routing, and no view reads [request.method]. *)
Inductive Endpoint : Type := index_ep | login_ep | duo_callback_ep | dashboard_ep | logout_ep.

Definition rule (e : Endpoint) : pystr :=
  match e with
  | index_ep => u "/"
  | login_ep => u "/login"
  | duo_callback_ep => u "/duo-callback"
  | dashboard_ep => u "/dashboard"
  | logout_ep => u "/logout"
  end.

(** [url_for(endpoint)]: none of the rules has a variable part. *)
Definition url_for (e : Endpoint) : pystr := rule e.

(** ** The session *)

(** [session]: a dictionary from the keys of the program text to values. *)
Abbreviation Session := (gmap string PyVal).

(** ** The identity provider *)

(** An exception is represented by its message, [str(e)]. *)
Abbreviation Exn := (list N) (only parsing).

(** The calls to the [duo_universal] client with their outcomes: [inl e] is
    an exception raised, [inr v] a value returned. *)
Inductive Call : Type :=
| health_check_call (r : Exn + unit)
| generate_state_call (r : Exn + pystr)
| create_auth_url_call (username state : pystr) (r : Exn + pystr)
| exchange_call (duo_code username : PyVal) (r : Exn + PyVal).

Section Gateway.
Context {W : Type}.

(** The client of the identity provider: each method acts on the state [W]
    of the provider and either raises or returns. *)
Record Client := mkClient {
  health_check : W → (Exn + unit) * W;
  generate_state : W → (Exn + pystr) * W;
  create_auth_url : pystr → pystr → W → (Exn + pystr) * W;
  exchange_authorization_code_for_2fa_result :
    PyVal → PyVal → W → (Exn + PyVal) * W
}.

(** The module-level variables the configuration block assigns. *)
Record Globals := mkGlobals {
  config_error : option pystr;
  duo_client : option Client
}.

(** ** The monad of a view function

    A view reads and writes the session, calls the provider and may let an
    exception escape. *)
Record State := mkState {
  session : Session;
  provider : W;
  calls : list Call
}.

Definition M (A : Type) : Type := State → (Exn + A) * State.

#[global] Instance M_ret : MRet M := λ A x st, (inr x, st).

#[global] Instance M_bind : MBind M := λ A B f m st,
  match m st with
  | (inr x, st') => f x st'
  | (inl e, st') => (inl e, st')
  end.

(** [try: m except Exception as e: ...]: the outcome of [m], caught. *)
Definition try {A} (m : M A) : M (Exn + A) := λ st,
  let '(r, st') := m st in (inr r, st').

Definition session_get (key : string) : M PyVal := λ st,
  (inr (default PyNone (session st !! key)), st).

Definition session_set (key : string) (v : PyVal) : M unit := λ st,
  (inr (), mkState (<[key := v]> (session st)) (provider st) (calls st)).

(** [session.pop(key, None)] *)
Definition session_pop (key : string) : M unit := λ st,
  (inr (), mkState (delete key (session st)) (provider st) (calls st)).

Definition session_clear : M unit := λ st,
  (inr (), mkState ∅ (provider st) (calls st)).

(** A method of [duo_client]: looking it up on [None] raises
    [AttributeError]; the call itself is logged with its outcome. *)
Definition attribute_error (name : string) : Exn :=
  u "'NoneType' object has no attribute '" ++ u name ++ u "'".

Definition invoke {A} (cl : option Client) (name : string)
    (f : Client → W → (Exn + A) * W) (log : Exn + A → Call) : M A := λ st,
  match cl with
  | None => (inl (attribute_error name), st)
  | Some c =>
      let '(r, w) := f c (provider st) in
      (r, mkState (session st) w (calls st ++ [log r]))
  end.

(** ** The view functions *)

(** The builtin [str], which the callback applies to the result of the
    exchange when that is not a mapping; the views hold for any. *)
Variable str : PyVal → pystr.

(** The module-level variables, fixed once the configuration block has run. *)
Variable app : Globals.

Definition MISSING_PARAMETERS : pystr :=
  u "Missing parameters from Duo. Please try logging in again.".

Definition STATE_MISMATCH : pystr :=
  u "State mismatch " ++ [0xE2; 0x20AC; 0x201D]
    ++ u " possible CSRF attack. Please try logging in again.".

(** The page every guarded view returns under a configuration error. *)
Definition error_page : Response :=
  with_status
    (render_template "error.html" [("error", py_opt (config_error app))]) 500.

Definition index (req : Request) : M Response :=
  if truthy (py_opt (config_error app)) then mret error_page
  else
    user ← session_get "authenticated_user";
    if truthy user then mret (redirect (url_for dashboard_ep))
    else mret (render_template "login.html" []).

Definition login (req : Request) : M Response :=
  if truthy (py_opt (config_error app)) then mret error_page
  else
    let username := strip (default [] (multi_get (form req) (u "username"))) in
    if negb (truthy (PyStr username)) then
      mret (render_template "login.html"
              [("error", PyStr (u "Username is required."))])
    else
      checked ← try (invoke (duo_client app) "health_check"
                       health_check health_check_call);
      match checked with
      | inl e =>
          mret (render_template "login.html"
                  [("error", PyStr (u "Duo health check failed: " ++ e));
                   ("username", PyStr username)])
      | inr _ =>
          state ← invoke (duo_client app) "generate_state"
                    generate_state generate_state_call;
          session_set "duo_state" (PyStr state);;
          session_set "duo_username" (PyStr username);;
          auth_url ← invoke (duo_client app) "create_auth_url"
                       (λ c, create_auth_url c username state)
                       (create_auth_url_call username state);
          mret (redirect auth_url)
      end.

(** What the callback stores under [auth_result]. *)
Definition auth_result_of (result : PyVal) : PyVal :=
  match result with
  | PyDict d => dict_get d (u "response") (PyDict [])
  | _ => PyStr (str result)
  end.

Definition duo_callback (req : Request) : M Response :=
  if truthy (py_opt (config_error app)) then mret error_page
  else
    let duo_code := multi_get (args req) (u "duo_code") in
    let state := multi_get (args req) (u "state") in
    if negb (truthy (py_opt duo_code)) || negb (truthy (py_opt state)) then
      mret (with_status
              (render_template "error.html"
                 [("error", PyStr MISSING_PARAMETERS)]) 400)
    else
      saved_state ← session_get "duo_state";
      if negb (truthy saved_state) || py_ne state saved_state then
        mret (with_status
                (render_template "error.html"
                   [("error", PyStr STATE_MISMATCH)]) 403)
      else
        username ← session_get "duo_username";
        exchanged ← try (invoke (duo_client app)
                           "exchange_authorization_code_for_2fa_result"
                           (λ c, exchange_authorization_code_for_2fa_result c
                                   (py_opt duo_code) username)
                           (exchange_call (py_opt duo_code) username));
        match exchanged with
        | inl e =>
            mret (with_status
                    (render_template "error.html"
                       [("error", PyStr (u "Duo authentication failed: " ++ e))])
                    401)
        | inr result =>
            session_pop "duo_state";;
            session_pop "duo_username";;
            session_set "authenticated_user" username;;
            session_set "auth_result" (auth_result_of result);;
            mret (redirect (url_for dashboard_ep))
        end.

Definition dashboard (req : Request) : M Response :=
  if truthy (py_opt (config_error app)) then mret error_page
  else
    user ← session_get "authenticated_user";
    if negb (truthy user) then mret (redirect (url_for index_ep))
    else
      auth_result ← session_get "auth_result";
      mret (render_template "dashboard.html"
              [("user", user); ("auth_result", auth_result)]).

Definition logout (req : Request) : M Response :=
  session_clear;;
  mret (redirect (url_for index_ep)).

(** The view function of each endpoint. *)
Definition view (e : Endpoint) : Request → M Response :=
  match e with
  | index_ep => index
  | login_ep => login
  | duo_callback_ep => duo_callback
  | dashboard_ep => dashboard
  | logout_ep => logout
  end.

(** One request: the view runs on the session the request carries, with an
    empty log. *)
Definition handle (e : Endpoint) (req : Request) (s : Session) (w : W)
    : (Exn + Response) * State :=
  view e req (mkState s w []).

Definition response_of (e : Endpoint) (req : Request) (s : Session) (w : W) :=
  (handle e req s w).1.
Definition session_after (e : Endpoint) (req : Request) (s : Session) (w : W) :=
  session (handle e req s w).2.
Definition calls_of (e : Endpoint) (req : Request) (s : Session) (w : W) :=
  calls (handle e req s w).2.

(** The sessions a browser can hold: the empty one, and the one any view
    leaves behind, on any request and in any state of the provider. *)
Inductive reachable : Session → Prop :=
| reachable_empty : reachable ∅
| reachable_handle (e : Endpoint) (req : Request) (s : Session) (w : W) :
    reachable s → reachable (session_after e req s w).

End Gateway.

(** ** The configuration block *)

Section Configuration.
Context {W : Type}.

Definition REQUIRED_KEYS : list pystr :=
  [u "client_id"; u "client_secret"; u "api_hostname"; u "redirect_uri";
   u "flask_secret_key"].

Definition PLACEHOLDER_VALUES : list (pystr * pystr) :=
  [(u "client_id", u "DIXXXXXXXXXXXXXXXXXX");
   (u "client_secret", u "your-duo-client-secret-here");
   (u "api_hostname", u "api-XXXXXXXX.duosecurity.com");
   (u "flask_secret_key", u "change-me-to-a-random-secret-string")].

(** What [open] and [json.load] give: one of the exceptions the block
    catches, or the document, here a JSON object. *)
Inductive ConfigFile : Type :=
| FileNotFoundError
| JSONDecodeError
| OtherException (e : Exn)
| Loaded (config : list (pystr * PyVal)).

(** [if l:] on a list *)
Definition nonempty {A} (l : list A) : bool :=
  match l with [] => false | _ => true end.

(** [k in config] *)
Definition dict_in (config : list (pystr * PyVal)) (k : pystr) : bool :=
  bool_decide (k ∈ config.*1).

(** The module-level variables and [app.secret_key] once the block has run. *)
Record Startup := mkStartup {
  globals : @Globals W;
  secret_key : PyVal
}.

(** [duo_universal.Client(client_id=..., client_secret=..., host=...,
    redirect_uri=...)], which raises on values it refuses. *)
Variable new_client : PyVal → PyVal → PyVal → PyVal → Exn + @Client W.

(** [if app.secret_key is None: app.secret_key = ...] *)
Definition or_fallback (key : PyVal) : PyVal :=
  match key with
  | PyNone => PyStr (u "fallback-for-error-display-only")
  | _ => key
  end.

Definition configure (file : ConfigFile) : Startup :=
  match file with
  | FileNotFoundError =>
      mkStartup
        (mkGlobals
           (Some (u "config.json not found. Please create it from the template."))
           None)
        (or_fallback PyNone)
  | JSONDecodeError =>
      mkStartup
        (mkGlobals
           (Some (u "config.json contains invalid JSON. Please fix the syntax."))
           None)
        (or_fallback PyNone)
  | OtherException e =>
      mkStartup
        (mkGlobals (Some (u "Failed to initialize Duo client: " ++ e)) None)
        (or_fallback PyNone)
  | Loaded config =>
      let missing :=
        filter (λ k, negb (dict_in config k)
                     || negb (truthy (dict_get config k PyNone)) = true)
          REQUIRED_KEYS in
      if nonempty missing then
        mkStartup
          (mkGlobals
             (Some (u "Missing required config keys: " ++ join (u ", ") missing
                    ++ u ". Please edit config.json."))
             None)
          (or_fallback PyNone)
      else
        let unchanged :=
          (filter (λ kv, py_ne (Some kv.2) (dict_get config kv.1 PyNone) = false)
             PLACEHOLDER_VALUES).*1 in
        if nonempty unchanged then
          mkStartup
            (mkGlobals
               (Some (u "Placeholder values detected in config.json for: "
                      ++ join (u ", ") unchanged
                      ++ u ". Please replace them with your real Duo credentials from the Duo Admin Panel."))
               None)
            (or_fallback PyNone)
        else
          let key := dict_get config (u "flask_secret_key") PyNone in
          match new_client (dict_get config (u "client_id") PyNone)
                  (dict_get config (u "client_secret") PyNone)
                  (dict_get config (u "api_hostname") PyNone)
                  (dict_get config (u "redirect_uri") PyNone) with
          | inr client =>
              mkStartup (mkGlobals None (Some client)) (or_fallback key)
          | inl e =>
              mkStartup
                (mkGlobals (Some (u "Failed to initialize Duo client: " ++ e)) None)
                (or_fallback key)
          end
  end.

End Configuration.

(** ** Stand-ins for the collaborators, for the examples *)

(** A provider without state of its own: the health check, the nonce and the
    exchange give what they are told to. *)
Definition stub_client (health : Exn + unit) (nonce : pystr) (result : Exn + PyVal)
    : @Client unit :=
  {| health_check := λ w, (health, w);
     generate_state := λ w, (inr nonce, w);
     create_auth_url := λ username state w,
       (inr (u "https://duo.example/oauth/v1/authorize?state=" ++ state), w);
     exchange_authorization_code_for_2fa_result := λ duo_code username w,
       (result, w) |}.

(** [str] on [None], booleans and strings, the values the examples put it to. *)
Definition stub_str (v : PyVal) : pystr :=
  match v with
  | PyStr s => s
  | PyNone => u "None"
  | PyBool true => u "True"
  | PyBool false => u "False"
  | _ => u "..."
  end.

(** The payload of an accepted second factor. *)
Definition ALLOW : PyVal :=
  PyDict [(u "response", PyDict [(u "result", PyStr (u "allow"))])].

Definition ready (health : Exn + unit) (result : Exn + PyVal) : @Globals unit :=
  mkGlobals None (Some (stub_client health (u "nonce-1") result)).

Definition broken : @Globals unit :=
  mkGlobals (Some (u "config.json not found. Please create it from the template.")) None.

Definition callback_request (duo_code state : pystr) : Request :=
  mkRequest (u "GET") [] [(u "duo_code", duo_code); (u "state", state)].

Definition login_request (username : pystr) : Request :=
  mkRequest (u "POST") [(u "username", username)] [].

Definition plain_request (m : string) : Request := mkRequest (u m) [] [].

Definition pending (state username : pystr) : Session :=
  <["duo_username" := PyStr username]> (<["duo_state" := PyStr state]> ∅).

(** A provider that accepts, one whose exchange raises, one that is down. *)
Definition accepting : @Globals unit := ready (inr ()) (inr ALLOW).
Definition refusing : @Globals unit := ready (inr ()) (inl (u "invalid_grant")).
Definition unhealthy : @Globals unit := ready (inl (u "timeout")) (inr ALLOW).

(** Alice between [/login] and the callback, the callback she comes back
    with, and Alice once authenticated. *)
Definition alice_pending : Session := pending (u "nonce-1") (u "alice").
Definition alice_callback : Request := callback_request (u "ABC") (u "nonce-1").
Definition alice_authenticated : Session :=
  <["auth_result" := PyDict [(u "result", PyStr (u "allow"))]]>
    (<["authenticated_user" := PyStr (u "alice")]> ∅).

(** ** The shape of the session during a handshake

    The two keys of a pending login hold a nonce and a username that is not
    empty, or are both absent; an authenticated user is a username that is
    not empty. *)
Definition handshake_wf (s : Session) : Prop :=
  ((s !! "duo_state" = None ∧ s !! "duo_username" = None)
   ∨ ∃ state username,
       s !! "duo_state" = Some (PyStr state)
       ∧ s !! "duo_username" = Some (PyStr username) ∧ username ≠ [])
  ∧ ∀ v, s !! "authenticated_user" = Some v →
         ∃ username, v = PyStr username ∧ username ≠ [].

(** Unfolds a request down to the operations on the state. *)
Ltac run_view :=
  unfold response_of, session_after, calls_of, handle, view,
    index, login, duo_callback, dashboard, logout, error_page,
    session_get, session_set, session_pop, session_clear, try, invoke,
    mbind, mret, M_bind, M_ret.

(** Closes a goal whose hypothesis finds a call in an empty log. *)
Ltac no_call H := apply elem_of_nil in H; contradiction.

(** Reduces the membership of a call in a short log to an equation. *)
Ltac the_call H :=
  repeat (apply elem_of_app in H as [H|H]);
  try apply list_elem_of_singleton in H; try no_call H; simplify_eq.

(** ** The lists of the configuration block

    [missing] and [unchanged], as the block computes them from a loaded
    configuration. *)
Definition missing_keys (config : list (pystr * PyVal)) : list pystr :=
  filter (λ k, negb (dict_in config k)
               || negb (truthy (dict_get config k PyNone)) = true)
    REQUIRED_KEYS.

Definition unchanged_keys (config : list (pystr * PyVal)) : list pystr :=
  (filter (λ kv, py_ne (Some kv.2) (dict_get config kv.1 PyNone) = false)
     PLACEHOLDER_VALUES).*1.

(** The keys of the session the views read and write. *)
Definition HANDSHAKE_KEYS : list string :=
  ["duo_state"; "duo_username"; "authenticated_user"; "auth_result"].

(** ** More stand-ins, for the examples *)

(** A provider in good health whose nonce and authorization URL are given,
    each a value or an exception. *)
Definition flaky_client (nonce : Exn + pystr) (url : Exn + pystr) : @Client unit :=
  {| health_check := λ w, (inr (), w);
     generate_state := λ w, (nonce, w);
     create_auth_url := λ username state w, (url, w);
     exchange_authorization_code_for_2fa_result := λ duo_code username w,
       (inr ALLOW, w) |}.

Definition flaky (nonce : Exn + pystr) (url : Exn + pystr) : @Globals unit :=
  mkGlobals None (Some (flaky_client nonce url)).

(** A constructor of clients that accepts every configuration. *)
Definition stub_new_client (client_id client_secret host redirect_uri : PyVal)
    : Exn + @Client unit :=
  inr (stub_client (inr ()) (u "nonce-1") (inr ALLOW)).

(** A configuration ready for use; one without [redirect_uri], with an empty
    secret and a placeholder left; one with two placeholders left. *)
Definition complete_config : list (pystr * PyVal) :=
  [(u "client_id", PyStr (u "DIABCDEFGHIJKLMNOPQR"));
   (u "client_secret", PyStr (u "0123456789abcdef0123456789abcdef01234567"));
   (u "api_hostname", PyStr (u "api-12345678.duosecurity.com"));
   (u "redirect_uri", PyStr (u "http://localhost:8080/duo-callback"));
   (u "flask_secret_key", PyStr (u "a-long-random-string"))].

Definition incomplete_config : list (pystr * PyVal) :=
  [(u "client_id", PyStr (u "DIABCDEFGHIJKLMNOPQR"));
   (u "client_secret", PyStr (u ""));
   (u "api_hostname", PyStr (u "api-XXXXXXXX.duosecurity.com"));
   (u "flask_secret_key", PyStr (u "a-long-random-string"))].

Definition template_config : list (pystr * PyVal) :=
  [(u "client_id", PyStr (u "DIXXXXXXXXXXXXXXXXXX"));
   (u "client_secret", PyStr (u "0123456789abcdef0123456789abcdef01234567"));
   (u "api_hostname", PyStr (u "api-12345678.duosecurity.com"));
   (u "redirect_uri", PyStr (u "http://localhost:8080/duo-callback"));
   (u "flask_secret_key", PyStr (u "change-me-to-a-random-secret-string"))].

(** * Properties *)

(** ** Strings *)


Lemma lstrip_split (s : pystr) :
  ∃ p, s = p ++ lstrip s ∧ Forall (λ c, c ∈ WHITESPACE) p.
Proof.
  induction s as [|c s [p [Hp Hw]]]; [by exists []|].
  simpl. unfold isspace. case_bool_decide.
  - exists (c :: p). split; [simpl; congruence | by constructor].
  - by exists [].
Qed.

Lemma lstrip_head (s : pystr) c r : lstrip s = c :: r → c ∉ WHITESPACE.
Proof.
  induction s as [|d s IH]; [done|]. simpl. unfold isspace.
  case_bool_decide; [done|]. intros; by simplify_eq.
Qed.



Lemma py_ne_spec (a : pystr) (v : PyVal) : py_ne (Some a) v = false ↔ v = PyStr a.
Proof.
  unfold py_ne. destruct v; try (split; [done | intros; simplify_eq]).
  case_bool_decide; simpl; split; intros; by simplify_eq.
Qed.

(** ** The configuration block *)

Section Startup.
Context {W : Type} (new_client : PyVal → PyVal → PyVal → PyVal → Exn + @Client W).

(** Every message the block assigns to [config_error] is true as a
    condition, so [if config_error:] holds exactly when it is set. *)
Lemma configure_error_truthy file e :
  config_error (globals (configure new_client file)) = Some e →
  truthy (py_opt (Some e)) = true.
Proof.
  destruct file; simpl; try (intros; by simplify_eq).
  repeat case_match; simpl; intros; by simplify_eq.
Qed.

(** The client exists exactly when no error is set. *)
Lemma configure_client file :
  config_error (globals (configure new_client file)) = None
  ↔ is_Some (duo_client (globals (configure new_client file))).
Proof.
  destruct file; simpl; try (split; [done | by intros [? ?]]).
  repeat case_match; simpl; (split; [done || eauto | done || by intros [? ?]]).
Qed.
End Startup.

(** ** The views *)

Section Properties.
Context {W : Type} (str : PyVal → pystr) (app : @Globals W).

(** A request leaves the session well formed. *)
Lemma handshake_wf_handle e req s w :
  handshake_wf s → handshake_wf (session_after str app e req s w).
Proof.
  intros [Hp Ha].
  assert (∀ name : pystr, negb (truthy (PyStr name)) = false → name ≠ [])
    as Hname by (by intros [|??]).
  assert (truthy (default PyNone (s !! "duo_state")) = true →
          ∃ name, default PyNone (s !! "duo_username") = PyStr name ∧ name ≠ [])
    as Hpending.
  { destruct Hp as [[-> _] | (? & ? & _ & -> & ?)]; simpl; [done | eauto]. }
  destruct e; run_view; repeat case_match; simpl in *; simplify_eq;
    try (split; assumption).
  all: split; [| intros v Hv ]; simplify_map_eq; eauto.
  all: try (right; eexists _, _; repeat split; by apply Hname).
  apply Hpending.
  by match goal with
     | H : negb ?b || _ = false |- _ => destruct b
     end.
Qed.

Lemma reachable_wf s : reachable str app s → handshake_wf s.
Proof.
  induction 1 as [|e req s w _ IH]; [|by apply handshake_wf_handle].
  split; [left; split; apply lookup_empty|].
  intros v Hv. by rewrite lookup_empty in Hv.
Qed.

(** The exchange is attempted only once the configuration, both parameters
    and the nonce have been checked, and it is the only call of the view. *)
Lemma exchange_call_inv req s w duo_code username r :
  exchange_call duo_code username r
    ∈ calls_of str app duo_callback_ep req s w →
  ∃ code state,
    truthy (py_opt (config_error app)) = false
    ∧ multi_get (args req) (u "duo_code") = Some code
    ∧ duo_code = PyStr code ∧ code ≠ []
    ∧ multi_get (args req) (u "state") = Some state ∧ state ≠ []
    ∧ s !! "duo_state" = Some (PyStr state)
    ∧ username = default PyNone (s !! "duo_username")
    ∧ calls_of str app duo_callback_ep req s w
      = [exchange_call duo_code username r].
Proof.
  run_view.
  destruct (truthy (py_opt (config_error app))) eqn:Hcfg;
    [intros Hin; no_call Hin|].
  destruct (multi_get (args req) (u "duo_code")) as [[|c code]|];
    [intros Hin; no_call Hin| |intros Hin; no_call Hin].
  destruct (multi_get (args req) (u "state")) as [[|a state]|];
    [intros Hin; no_call Hin| |intros Hin; no_call Hin].
  cbn [py_opt truthy negb orb session provider calls].
  destruct (s !! "duo_state") as [v|]; [|intros Hin; no_call Hin].
  cbn [default from_option id].
  destruct (truthy v) eqn:Hv; [|intros Hin; no_call Hin].
  destruct (py_ne (Some (a :: state)) v) eqn:Hne; [intros Hin; no_call Hin|].
  apply py_ne_spec in Hne as ->. cbn [negb orb].
  destruct (duo_client app) as [cl|]; [|intros Hin; no_call Hin].
  repeat case_match; simplify_eq; simpl;
    intros Hin; the_call Hin; by eexists _, _.
Qed.

(** When the checks pass, the exchange is made, with the code of the
    request and the username of the pending login. *)
Lemma duo_callback_exchanges req s w client code state :
  truthy (py_opt (config_error app)) = false →
  duo_client app = Some client →
  multi_get (args req) (u "duo_code") = Some code → code ≠ [] →
  multi_get (args req) (u "state") = Some state → state ≠ [] →
  s !! "duo_state" = Some (PyStr state) →
  let username := default PyNone (s !! "duo_username") in
  calls_of str app duo_callback_ep req s w
  = [exchange_call (PyStr code) username
       (exchange_authorization_code_for_2fa_result client (PyStr code) username w).1].
Proof.
  intros Hcfg Hcl Hcode Hc Hstate Hs Hsaved. run_view.
  rewrite Hcfg, Hcode, Hstate, Hcl.
  destruct code as [|c code]; [done|]. destruct state as [|a state]; [done|].
  cbn [py_opt truthy negb orb session provider calls]. rewrite Hsaved.
  cbn [default from_option id truthy negb orb py_ne].
  rewrite bool_decide_eq_true_2 by done. cbn [negb].
  repeat case_match; simpl in *; simplify_eq.
  all: by match goal with
          | H : exchange_authorization_code_for_2fa_result _ _ _ _ = _ |- _ =>
              rewrite H
          end.
Qed.

(** A login with a username and a provider in good health asks it for a
    nonce. *)
Lemma login_reaches_provider req s w client :
  truthy (py_opt (config_error app)) = false →
  duo_client app = Some client →
  strip (default [] (multi_get (form req) (u "username"))) ≠ [] →
  (health_check client w).1 = inr () →
  generate_state_call (generate_state client (health_check client w).2).1
    ∈ calls_of str app login_ep req s w.
Proof.
  intros Hcfg Hcl Hname Hhealth. run_view. rewrite Hcfg, Hcl.
  destruct (strip _) as [|c name]; [done|].
  cbn [truthy negb session provider calls].
  destruct (health_check client w) as [checked w1]. simpl in Hhealth. subst checked.
  cbn [session provider calls snd].
  destruct (generate_state client w1) as [[e|state] w2];
    cbn [session provider calls snd fst].
  - apply elem_of_app. right. by apply list_elem_of_singleton.
  - destruct (create_auth_url client (c :: name) state w2) as [[e|url] w3];
      cbn [session provider calls snd fst].
    all: apply elem_of_app; left; apply elem_of_app.
    all: right; by apply list_elem_of_singleton.
Qed.

(** What a login that reaches the provider leaves in the session. *)
Lemma login_writes_pending req s w state :
  generate_state_call (inr state) ∈ calls_of str app login_ep req s w →
  session_after str app login_ep req s w
  = <["duo_username" :=
        PyStr (strip (default [] (multi_get (form req) (u "username"))))]>
      (<["duo_state" := PyStr state]> s).
Proof.
  run_view. repeat case_match; simpl in *; simplify_eq;
    intros Hin; the_call Hin; reflexivity.
Qed.

(** What a callback whose exchange succeeds leaves in the session. *)
Lemma duo_callback_promotes req s w duo_code username result :
  exchange_call duo_code username (inr result)
    ∈ calls_of str app duo_callback_ep req s w →
  session_after str app duo_callback_ep req s w
  = <["auth_result" := auth_result_of str result]>
      (<["authenticated_user" := username]>
         (delete "duo_username" (delete "duo_state" s))).
Proof.
  run_view. repeat case_match; simpl in *; simplify_eq;
    intros Hin; the_call Hin; reflexivity.
Qed.

(** The username a handshake authenticates is the one submitted to
    [/login], stripped. *)
Lemma handshake_authenticates_submitted req s w state req' w' duo_code username result :
  generate_state_call (inr state) ∈ calls_of str app login_ep req s w →
  exchange_call duo_code username (inr result)
    ∈ calls_of str app duo_callback_ep req' (session_after str app login_ep req s w) w' →
  session_after str app duo_callback_ep req'
    (session_after str app login_ep req s w) w' !! "authenticated_user"
  = Some (PyStr (strip (default [] (multi_get (form req) (u "username"))))).
Proof.
  intros Hlogin Hcallback.
  rewrite (duo_callback_promotes _ _ _ _ _ _ Hcallback).
  apply exchange_call_inv in Hcallback
    as (? & ? & _ & _ & _ & _ & _ & _ & _ & -> & _).
  rewrite (login_writes_pending _ _ _ _ Hlogin). by simplify_map_eq.
Qed.

(** The guard the views of [/], [/login], [/duo-callback] and [/dashboard]
    start with. *)
Lemma guarded_view_error e req s w :
  truthy (py_opt (config_error app)) = true →
  e ≠ logout_ep →
  handle str app e req s w = (inr (error_page app), mkState s w []).
Proof.
  intros Hcfg He. destruct e; try done; run_view; by rewrite Hcfg.
Qed.

(** C1 (as amended).  Under a configuration error the views of [/],
    [/login], [/duo-callback] and [/dashboard] return the diagnostic page
    with status 500 on every request, whatever its method field and
    parameters, leave the session as it was and call the provider not
    once. *)
Theorem config_error_gate e req s w :
  truthy (py_opt (config_error app)) = true →
  e ≠ logout_ep →
  handle str app e req s w
  = (inr (Rendered "error.html" [("error", py_opt (config_error app))] 500),
     mkState s w []).
Proof.
  intros Hcfg He. destruct e; try done.
  all: run_view; rewrite Hcfg; reflexivity.
Qed.

(** C2 (as amended).  With no configuration error, a callback whose
    [duo_code] and [state] are both present and not empty, on a session
    that holds no nonce or a value other than the [state] received, is
    answered 403 with the anti-CSRF message; the provider is not called and
    the session is left as it was. *)
Theorem duo_callback_state_mismatch req s w duo_code state :
  truthy (py_opt (config_error app)) = false →
  multi_get (args req) (u "duo_code") = Some duo_code → duo_code ≠ [] →
  multi_get (args req) (u "state") = Some state → state ≠ [] →
  s !! "duo_state" = None
  ∨ (∃ v, s !! "duo_state" = Some v ∧ v ≠ PyStr state) →
  handle str app duo_callback_ep req s w
  = (inr (Rendered "error.html" [("error", PyStr STATE_MISMATCH)] 403),
     mkState s w []).
Proof.
  intros Hcfg Hcode Hc Hstate Hs Hsaved. run_view.
  rewrite Hcfg, Hcode, Hstate.
  destruct duo_code as [|c cs]; [done|]. destruct state as [|a r]; [done|].
  cbn [py_opt truthy negb orb session provider calls].
  destruct Hsaved as [-> | (v & -> & Hv)]; [reflexivity|].
  assert (py_ne (Some (a :: r)) v = true) as Hne.
  { destruct (py_ne (Some (a :: r)) v) eqn:E; [done|]. by apply py_ne_spec in E. }
  cbn [default from_option id]. by rewrite Hne, orb_true_r.
Qed.


(** A callback that passes the checks and whose exchange returns: the whole
    outcome, from the request, the session and the provider. *)
Lemma duo_callback_exchange_returns req s w client code state result w1 :
  truthy (py_opt (config_error app)) = false →
  duo_client app = Some client →
  multi_get (args req) (u "duo_code") = Some code → code ≠ [] →
  multi_get (args req) (u "state") = Some state → state ≠ [] →
  s !! "duo_state" = Some (PyStr state) →
  exchange_authorization_code_for_2fa_result client (PyStr code)
    (default PyNone (s !! "duo_username")) w = (inr result, w1) →
  handle str app duo_callback_ep req s w
  = (inr (Redirect (u "/dashboard") 302),
     mkState
       (<["auth_result" := auth_result_of str result]>
          (<["authenticated_user" := default PyNone (s !! "duo_username")]>
             (delete "duo_username" (delete "duo_state" s))))
       w1
       [exchange_call (PyStr code) (default PyNone (s !! "duo_username"))
          (inr result)]).
Proof.
  intros Hcfg Hcl Hcode Hc Hstate Hs Hsaved Hex. run_view.
  rewrite Hcfg, Hcode, Hstate, Hcl.
  destruct code as [|c code]; [done|]. destruct state as [|a state]; [done|].
  cbn [py_opt truthy negb orb session provider calls]. rewrite Hsaved.
  cbn [default from_option id truthy negb orb py_ne].
  rewrite bool_decide_eq_true_2 by done. cbn [negb].
  cbn [session provider calls]. by rewrite Hex.
Qed.

(** An exchange that returned is in the log of the callback only on such a
    request, session and provider. *)
Lemma exchange_returned_inv req s w duo_code username result :
  exchange_call duo_code username (inr result)
    ∈ calls_of str app duo_callback_ep req s w →
  ∃ client code state w1,
    truthy (py_opt (config_error app)) = false
    ∧ duo_client app = Some client
    ∧ multi_get (args req) (u "duo_code") = Some code ∧ code ≠ []
    ∧ multi_get (args req) (u "state") = Some state ∧ state ≠ []
    ∧ s !! "duo_state" = Some (PyStr state)
    ∧ duo_code = PyStr code
    ∧ username = default PyNone (s !! "duo_username")
    ∧ exchange_authorization_code_for_2fa_result client (PyStr code)
        (default PyNone (s !! "duo_username")) w = (inr result, w1).
Proof.
  intros Hin.
  assert (∃ client, duo_client app = Some client) as [client Hcl].
  { revert Hin. run_view. repeat case_match; simpl in *; simplify_eq;
      intros Hin; the_call Hin; eauto. }
  destruct (exchange_call_inv req s w _ _ _ Hin)
    as (code & state & Hcfg & Hcode & -> & Hc & Hstate & Hs & Hsaved & -> & Hlog).
  rewrite (duo_callback_exchanges req s w client code state) in Hlog by done.
  destruct (exchange_authorization_code_for_2fa_result client (PyStr code)
              (default PyNone (s !! "duo_username")) w) as [r w1] eqn:Hex.
  simpl in Hlog. simplify_eq. by exists client, code, state, w1.
Qed.

(** C4.  A callback whose exchange succeeds (no configuration error, both
    parameters given, the [state] received equal to the stored nonce, and the
    provider returning a result for the code and the stored username)
    redirects to the dashboard after that one call and leaves the session
    without the two keys of the pending login, with the username the pending
    login held as authenticated user: in a reachable session, the non-empty
    string [/login] stored. *)
Theorem duo_callback_exchange_success req s w client code state result w1 :
  truthy (py_opt (config_error app)) = false →
  duo_client app = Some client →
  multi_get (args req) (u "duo_code") = Some code → code ≠ [] →
  multi_get (args req) (u "state") = Some state → state ≠ [] →
  s !! "duo_state" = Some (PyStr state) →
  exchange_authorization_code_for_2fa_result client (PyStr code)
    (default PyNone (s !! "duo_username")) w = (inr result, w1) →
  let username := default PyNone (s !! "duo_username") in
  let s' := session_after str app duo_callback_ep req s w in
  handle str app duo_callback_ep req s w
  = (inr (Redirect (u "/dashboard") 302),
     mkState
       (<["auth_result" := auth_result_of str result]>
          (<["authenticated_user" := username]>
             (delete "duo_username" (delete "duo_state" s))))
       w1 [exchange_call (PyStr code) username (inr result)])
  ∧ s' !! "duo_state" = None
  ∧ s' !! "duo_username" = None
  ∧ s' !! "authenticated_user" = Some username
  ∧ (reachable str app s → ∃ name, username = PyStr name ∧ name ≠ []).
Proof.
  intros Hcfg Hcl Hcode Hc Hstate Hs Hsaved Hex username s'.
  pose proof (duo_callback_exchange_returns req s w client code state result w1
                Hcfg Hcl Hcode Hc Hstate Hs Hsaved Hex) as Hrun.
  subst s'. unfold session_after. rewrite Hrun. cbn [snd session].
  split; [reflexivity|]. split; [by simplify_map_eq|].
  split; [by simplify_map_eq|]. split; [by simplify_map_eq|].
  intros Hreach. apply reachable_wf in Hreach as [Hp _]. subst username.
  destruct Hp as [[Hnone _] | (? & name & _ & -> & ?)]; [congruence|].
  simpl. eauto.
Qed.

(** C5 (as amended).  After a successful exchange [auth_result] holds, when
    the result is a mapping, the value under its key [response] (the empty
    mapping when it has none), and otherwise the string form of the
    result. *)
Theorem duo_callback_auth_result req s w duo_code username result :
  exchange_call duo_code username (inr result)
    ∈ calls_of str app duo_callback_ep req s w →
  let stored := session_after str app duo_callback_ep req s w !! "auth_result" in
  (∀ d, result = PyDict d →
        stored = Some (dict_get d (u "response") (PyDict [])))
  ∧ (isinstance_dict result = false → stored = Some (PyStr (str result))).
Proof.
  intros Hin stored. subst stored.
  rewrite (duo_callback_promotes _ _ _ _ _ _ Hin). split.
  - intros d ->. by simplify_map_eq.
  - intros Hother. simplify_map_eq. by destruct result.
Qed.

(** C6.  With no configuration error, a callback without [duo_code] or
    without [state] is answered 400 with the try-again message; the session
    is left as it was and the provider is not called. *)
Theorem duo_callback_missing_parameter req s w :
  truthy (py_opt (config_error app)) = false →
  multi_get (args req) (u "duo_code") = None
  ∨ multi_get (args req) (u "state") = None →
  handle str app duo_callback_ep req s w
  = (inr (Rendered "error.html" [("error", PyStr MISSING_PARAMETERS)] 400),
     mkState s w []).
Proof.
  intros Hcfg Habsent. run_view. rewrite Hcfg.
  destruct Habsent as [-> | ->]; simpl; [reflexivity|].
  by rewrite orb_true_r.
Qed.


(** C8 (as amended).  [logout] empties the session and redirects to [/],
    whatever the session held; on the emptied session it does the same
    again; and the dashboard, asked right after a logout, redirects to [/]
    when no configuration error is set, and returns the diagnostic page with
    status 500 when one is. *)
Theorem logout_clears req s w req' w' :
  let s' := session_after str app logout_ep req s w in
  handle str app logout_ep req s w = (inr (Redirect (u "/") 302), mkState ∅ w [])
  ∧ handle str app logout_ep req' s' w'
    = (inr (Redirect (u "/") 302), mkState s' w' [])
  ∧ (truthy (py_opt (config_error app)) = false →
     handle str app dashboard_ep req' s' w'
     = (inr (Redirect (u "/") 302), mkState s' w' []))
  ∧ (truthy (py_opt (config_error app)) = true →
     handle str app dashboard_ep req' s' w'
     = (inr (Rendered "error.html" [("error", py_opt (config_error app))] 500),
        mkState s' w' [])).
Proof.
  repeat split; intros Hcfg; run_view; by rewrite Hcfg.
Qed.

(** C9.  In every reachable session the two keys of the pending login are
    present together or absent together. *)
Theorem pending_keys_together s :
  reachable str app s →
  is_Some (s !! "duo_state") ↔ is_Some (s !! "duo_username").
Proof.
  intros Hs.
  apply reachable_wf in Hs as [[[-> ->] | (? & ? & -> & -> & _)] _];
    split; intros [? ?]; by eauto.
Qed.

(** A login with a username, a provider in good health and a nonce writes
    the pending login, whatever [create_auth_url] then does. *)
Lemma login_generates_state req s w client w1 state w2 :
  truthy (py_opt (config_error app)) = false →
  duo_client app = Some client →
  strip (default [] (multi_get (form req) (u "username"))) ≠ [] →
  health_check client w = (inr (), w1) →
  generate_state client w1 = (inr state, w2) →
  session_after str app login_ep req s w
  = <["duo_username" :=
        PyStr (strip (default [] (multi_get (form req) (u "username"))))]>
      (<["duo_state" := PyStr state]> s).
Proof.
  intros Hcfg Hcl Hname Hhealth Hstate. run_view. rewrite Hcfg, Hcl.
  destruct (strip _) as [|c name]; [done|].
  cbn [truthy negb session provider calls]. rewrite Hhealth.
  cbn [session provider calls snd]. rewrite Hstate.
  cbn [session provider calls snd fst].
  by destruct (create_auth_url client (c :: name) state w2) as [[e|url] w3].
Qed.

(** Any other login writes nothing. *)
Lemma login_writes_nothing req s w :
  truthy (py_opt (config_error app)) = true
  ∨ strip (default [] (multi_get (form req) (u "username"))) = []
  ∨ duo_client app = None
  ∨ (∃ client e w1,
       duo_client app = Some client ∧ health_check client w = (inl e, w1))
  ∨ (∃ client w1 e w2,
       duo_client app = Some client ∧ health_check client w = (inr (), w1)
       ∧ generate_state client w1 = (inl e, w2)) →
  session_after str app login_ep req s w = s.
Proof.
  intros [Hcfg | [Hname | Hrest]].
  - run_view. by rewrite Hcfg.
  - run_view. rewrite Hname. by destruct (truthy (py_opt (config_error app))).
  - run_view. destruct (truthy (py_opt (config_error app))); [done|].
    destruct (strip _) as [|c name]; [done|].
    cbn [truthy negb session provider calls].
    destruct Hrest as [-> | [(client & e & w1 & -> & Hh)
                            | (client & w1 & e & w2 & -> & Hh & Hg)]].
    + done.
    + by rewrite Hh.
    + rewrite Hh. cbn [session provider calls snd]. by rewrite Hg.
Qed.

(** C10 (as amended).  [login] never changes [authenticated_user] nor
    [auth_result], on any request and session.  With no configuration error,
    a username that is not blank, a health check that passes and a nonce
    from [generate_state], it writes the pending login next to them, so that
    a session that was authenticated then holds both; under a configuration
    error, with a blank username, a failing health check or a failing
    [generate_state] it writes nothing. *)
Theorem login_keeps_authenticated req s w :
  let s' := session_after str app login_ep req s w in
  let username := strip (default [] (multi_get (form req) (u "username"))) in
  s' !! "authenticated_user" = s !! "authenticated_user"
  ∧ s' !! "auth_result" = s !! "auth_result"
  ∧ (∀ client w1 state w2,
       truthy (py_opt (config_error app)) = false →
       duo_client app = Some client →
       username ≠ [] →
       health_check client w = (inr (), w1) →
       generate_state client w1 = (inr state, w2) →
       s' = <["duo_username" := PyStr username]> (<["duo_state" := PyStr state]> s)
       ∧ s' !! "duo_state" = Some (PyStr state)
       ∧ s' !! "duo_username" = Some (PyStr username))
  ∧ (truthy (py_opt (config_error app)) = true
     ∨ username = []
     ∨ duo_client app = None
     ∨ (∃ client e w1,
          duo_client app = Some client ∧ health_check client w = (inl e, w1))
     ∨ (∃ client w1 e w2,
          duo_client app = Some client ∧ health_check client w = (inr (), w1)
          ∧ generate_state client w1 = (inl e, w2)) →
     s' = s).
Proof.
  intros s' username. split; [|split; [|split]].
  - subst s'. run_view. repeat case_match; simpl in *; by simplify_map_eq.
  - subst s'. run_view. repeat case_match; simpl in *; by simplify_map_eq.
  - intros client w1 state w2 Hcfg Hcl Hname Hhealth Hstate. subst s' username.
    rewrite (login_generates_state req s w client w1 state w2) by done.
    split; [reflexivity|]. split; by simplify_map_eq.
  - subst s' username. apply login_writes_nothing.
Qed.

End Properties.

(** With the variables as the configuration block leaves them: once
    [config_error] is set, in whatever way, the guarded views answer 500. *)
Lemma startup_error_gate {W} (new_client : PyVal → PyVal → PyVal → PyVal → Exn + @Client W)
    str file message e req s w :
  let app := globals (configure new_client file) in
  config_error app = Some message →
  e ≠ logout_ep →
  handle str app e req s w
  = (inr (Rendered "error.html" [("error", PyStr message)] 500), mkState s w []).
Proof.
  intros app Hset He. rewrite guarded_view_error; [|subst app|done].
  - unfold error_page. by rewrite Hset.
  - rewrite Hset. by eapply configure_error_truthy.
Qed.

(** * Examples

    The views on the stand-in provider: a run of each property, and the
    requests on which a reading of the specification and the code part. *)

(** The handshake of one user, from the form to the dashboard. *)
Example handshake_scenario :
  response_of stub_str accepting login_ep (login_request (u " alice ")) ∅ tt
  = inr (Redirect (u "https://duo.example/oauth/v1/authorize?state=nonce-1") 302)
  ∧ session_after stub_str accepting login_ep (login_request (u " alice ")) ∅ tt
    = alice_pending
  ∧ handle stub_str accepting duo_callback_ep alice_callback alice_pending tt
    = (inr (Redirect (u "/dashboard") 302),
       mkState alice_authenticated tt
         [exchange_call (PyStr (u "ABC")) (PyStr (u "alice")) (inr ALLOW)])
  ∧ response_of stub_str accepting dashboard_ep (plain_request "GET")
      alice_authenticated tt
    = inr (Rendered "dashboard.html"
             [("user", PyStr (u "alice"));
              ("auth_result", PyDict [(u "result", PyStr (u "allow"))])] 200).
Proof. repeat split; reflexivity. Qed.

Lemma config_error_gate_witness :
  truthy (py_opt (config_error broken)) = true
  ∧ handle stub_str broken dashboard_ep (plain_request "GET") alice_pending tt
    = (inr (Rendered "error.html" [("error", py_opt (config_error broken))] 500),
       mkState alice_pending tt []).
Proof.
  split; [reflexivity|].
  apply (config_error_gate stub_str broken dashboard_ep (plain_request "GET")
           alice_pending tt).
  - reflexivity.
  - discriminate.
Defined.

(** C1, the request on which it fails: under a configuration error a logout
    is answered 302, not 500, and has emptied the session. *)
Lemma logout_skips_config_error :
  truthy (py_opt (config_error broken)) = true
  ∧ handle stub_str broken logout_ep (plain_request "POST") alice_pending tt
    = (inr (Redirect (u "/") 302), mkState ∅ tt [])
  ∧ status_code (Redirect (u "/") 302) ≠ 500%Z
  ∧ alice_pending !! "duo_state" ≠ (∅ : Session) !! "duo_state".
Proof. repeat split; discriminate. Qed.

Lemma duo_callback_state_mismatch_witness :
  handle stub_str accepting duo_callback_ep
    (callback_request (u "ABC") (u "WRONG")) alice_pending tt
  = (inr (Rendered "error.html" [("error", PyStr STATE_MISMATCH)] 403),
     mkState alice_pending tt []).
Proof.
  apply (duo_callback_state_mismatch stub_str accepting
           (callback_request (u "ABC") (u "WRONG")) alice_pending tt
           (u "ABC") (u "WRONG")).
  - reflexivity.
  - reflexivity.
  - discriminate.
  - reflexivity.
  - discriminate.
  - right. exists (PyStr (u "nonce-1")). split; [reflexivity | discriminate].
Defined.

(** C2, the requests on which it fails: a callback with both parameters on a
    session without nonce is answered 500 under a configuration error, and
    400 when the [duo_code] it carries is empty. *)
Lemma duo_callback_mismatch_not_403 :
  handle stub_str broken duo_callback_ep
    (callback_request (u "ABC") (u "WRONG")) ∅ tt
  = (inr (Rendered "error.html" [("error", py_opt (config_error broken))] 500),
     mkState ∅ tt [])
  ∧ handle stub_str accepting duo_callback_ep
      (callback_request (u "") (u "WRONG")) ∅ tt
    = (inr (Rendered "error.html" [("error", PyStr MISSING_PARAMETERS)] 400),
       mkState ∅ tt []).
Proof. split; reflexivity. Qed.


Lemma duo_callback_exchange_success_witness :
  handle stub_str accepting duo_callback_ep alice_callback alice_pending tt
  = (inr (Redirect (u "/dashboard") 302),
     mkState alice_authenticated tt
       [exchange_call (PyStr (u "ABC")) (PyStr (u "alice")) (inr ALLOW)])
  ∧ session_after stub_str accepting duo_callback_ep alice_callback alice_pending tt
      !! "duo_state" = None
  ∧ session_after stub_str accepting duo_callback_ep alice_callback alice_pending tt
      !! "duo_username" = None
  ∧ session_after stub_str accepting duo_callback_ep alice_callback alice_pending tt
      !! "authenticated_user" = Some (PyStr (u "alice")).
Proof.
  destruct (duo_callback_exchange_success stub_str accepting alice_callback
              alice_pending tt (stub_client (inr ()) (u "nonce-1") (inr ALLOW))
              (u "ABC") (u "nonce-1") ALLOW tt)
    as (Hrun & Hstate & Huser & Hauth & _).
  - reflexivity.
  - reflexivity.
  - reflexivity.
  - discriminate.
  - reflexivity.
  - discriminate.
  - reflexivity.
  - reflexivity.
  - split; [|auto]. etrans; [exact Hrun|reflexivity].
Defined.

Lemma duo_callback_auth_result_witness :
  session_after stub_str accepting duo_callback_ep alice_callback alice_pending tt
    !! "auth_result"
  = Some (PyDict [(u "result", PyStr (u "allow"))])
  ∧ session_after stub_str (ready (inr ()) (inr (PyBool true))) duo_callback_ep
      alice_callback alice_pending tt !! "auth_result"
    = Some (PyStr (u "True")).
Proof.
  split.
  - destruct (duo_callback_auth_result stub_str accepting
                alice_callback alice_pending tt
                (PyStr (u "ABC")) (PyStr (u "alice")) ALLOW)
      as [Hdict _].
    + vm_compute. constructor.
    + apply (Hdict [(u "response", PyDict [(u "result", PyStr (u "allow"))])]).
      reflexivity.
  - destruct (duo_callback_auth_result stub_str (ready (inr ()) (inr (PyBool true)))
                alice_callback alice_pending tt
                (PyStr (u "ABC")) (PyStr (u "alice")) (PyBool true))
      as [_ Hother].
    + vm_compute. constructor.
    + apply Hother. reflexivity.
Defined.

(** C5, the result on which it fails: of the mapping the exchange returns,
    only the value under [response] is stored. *)
Lemma auth_result_not_verbatim :
  calls_of stub_str accepting duo_callback_ep alice_callback alice_pending tt
  = [exchange_call (PyStr (u "ABC")) (PyStr (u "alice")) (inr ALLOW)]
  ∧ session_after stub_str accepting duo_callback_ep alice_callback alice_pending tt
      !! "auth_result"
    = Some (PyDict [(u "result", PyStr (u "allow"))])
  ∧ PyDict [(u "result", PyStr (u "allow"))] ≠ ALLOW.
Proof. repeat split. discriminate. Qed.

Lemma duo_callback_missing_parameter_witness :
  handle stub_str accepting duo_callback_ep
    (mkRequest (u "GET") [] [(u "state", u "nonce-1")]) alice_pending tt
  = (inr (Rendered "error.html" [("error", PyStr MISSING_PARAMETERS)] 400),
     mkState alice_pending tt []).
Proof.
  apply (duo_callback_missing_parameter stub_str accepting).
  - reflexivity.
  - left. reflexivity.
Defined.


Lemma logout_clears_witness :
  truthy (py_opt (config_error accepting)) = false
  ∧ session_after stub_str accepting logout_ep (plain_request "POST")
      alice_authenticated tt = ∅
  ∧ handle stub_str accepting dashboard_ep (plain_request "GET")
      (session_after stub_str accepting logout_ep (plain_request "POST")
         alice_authenticated tt) tt
    = (inr (Redirect (u "/") 302), mkState ∅ tt []).
Proof.
  destruct (logout_clears stub_str accepting (plain_request "POST")
              alice_authenticated tt (plain_request "GET") tt)
    as (_ & _ & Hdashboard & _).
  split; [reflexivity|]. split; [reflexivity|].
  apply Hdashboard. reflexivity.
Defined.

(** C8, the request on which it fails: under a configuration error the
    dashboard, asked right after a logout, is answered 500. *)
Lemma dashboard_after_logout_config_error :
  session_after stub_str broken logout_ep (plain_request "POST") alice_pending tt
  = ∅
  ∧ handle stub_str broken dashboard_ep (plain_request "GET")
      (session_after stub_str broken logout_ep (plain_request "POST")
         alice_pending tt) tt
    = (inr (Rendered "error.html" [("error", py_opt (config_error broken))] 500),
       mkState ∅ tt []).
Proof. split; reflexivity. Qed.

Lemma pending_keys_together_witness :
  session_after stub_str accepting login_ep (login_request (u "alice")) ∅ tt
  = alice_pending
  ∧ (is_Some (alice_pending !! "duo_state")
     ↔ is_Some (alice_pending !! "duo_username")).
Proof.
  split; [reflexivity|].
  apply (pending_keys_together stub_str accepting).
  apply (reachable_handle stub_str accepting login_ep
           (login_request (u "alice")) ∅ tt), reachable_empty.
Defined.

Lemma login_keeps_authenticated_witness :
  session_after stub_str accepting login_ep (login_request (u "bob"))
    alice_authenticated tt !! "authenticated_user"
  = Some (PyStr (u "alice"))
  ∧ session_after stub_str accepting login_ep (login_request (u "bob"))
      alice_authenticated tt !! "auth_result"
    = Some (PyDict [(u "result", PyStr (u "allow"))])
  ∧ session_after stub_str accepting login_ep (login_request (u "bob"))
      alice_authenticated tt !! "duo_state"
    = Some (PyStr (u "nonce-1"))
  ∧ session_after stub_str accepting login_ep (login_request (u "bob"))
      alice_authenticated tt !! "duo_username"
    = Some (PyStr (u "bob")).
Proof.
  destruct (login_keeps_authenticated stub_str accepting (login_request (u "bob"))
              alice_authenticated tt) as (Huser & Hresult & Hpending & _).
  split; [exact Huser|]. split; [exact Hresult|].
  destruct (Hpending (stub_client (inr ()) (u "nonce-1") (inr ALLOW))
              tt (u "nonce-1") tt) as (_ & Hstate & Hname).
  - reflexivity.
  - reflexivity.
  - discriminate.
  - reflexivity.
  - reflexivity.
  - split; [exact Hstate | exact Hname].
Defined.

(** C10, the requests on which it fails: a login with a blank username, with
    a provider that is down, or under a configuration error writes no
    pending login; the authenticated session stays as it was, alone. *)
Lemma login_without_pending :
  session_after stub_str accepting login_ep (login_request (u "  "))
    alice_authenticated tt
  = alice_authenticated
  ∧ session_after stub_str unhealthy login_ep (login_request (u "bob"))
      alice_authenticated tt
    = alice_authenticated
  ∧ session_after stub_str broken login_ep (login_request (u "bob"))
      alice_authenticated tt
    = alice_authenticated
  ∧ alice_authenticated !! "duo_state" = None
  ∧ alice_authenticated !! "duo_username" = None.
Proof. repeat split; reflexivity. Qed.

(** * Further properties of the configuration block *)

Lemma dict_get_present config k :
  truthy (dict_get config k PyNone) = true → k ∈ config.*1.
Proof.
  induction config as [|[k' v] config IH]; simpl; [done|].
  destruct (bool_decide (k' = k)) eqn:Hk.
  - apply bool_decide_eq_true_1 in Hk as ->. intros _. by left.
  - intros Hv. right. by apply IH.
Qed.

(** A key is reported missing when the configuration has no true value for
    it: it is absent, or present with [""], [null], [false], [0], an empty
    list or an empty object. *)
Lemma missing_keys_spec config k :
  k ∈ missing_keys config
  ↔ k ∈ REQUIRED_KEYS ∧ truthy (dict_get config k PyNone) = false.
Proof.
  unfold missing_keys. rewrite list_elem_of_filter. split.
  - intros [Hk ?]. split; [done|].
    destruct (truthy (dict_get config k PyNone)) eqn:Hv; [|done].
    apply dict_get_present in Hv. unfold dict_in in Hk.
    by rewrite bool_decide_eq_true_2 in Hk.
  - intros [? Hv]. split; [|done]. by rewrite Hv, orb_true_r.
Qed.

Lemma unchanged_keys_spec config k :
  k ∈ unchanged_keys config
  ↔ ∃ v, (k, v) ∈ PLACEHOLDER_VALUES ∧ dict_get config k PyNone = PyStr v.
Proof.
  unfold unchanged_keys. rewrite list_elem_of_fmap. split.
  - intros [[k' v] [-> [Hne ?]%list_elem_of_filter]]. simpl in *.
    exists v. split; [done|]. by apply py_ne_spec.
  - intros [v [? Hv]]. exists (k, v). split; [done|].
    apply list_elem_of_filter. split; [|done]. simpl. by apply py_ne_spec.
Qed.

Lemma missing_keys_nil config :
  missing_keys config = []
  ↔ ∀ k, k ∈ REQUIRED_KEYS → truthy (dict_get config k PyNone) = true.
Proof.
  split.
  - intros Hnil k Hk. destruct (truthy (dict_get config k PyNone)) eqn:Hv; [done|].
    assert (k ∈ missing_keys config) as Hin by by apply missing_keys_spec.
    rewrite Hnil in Hin. by apply elem_of_nil in Hin.
  - intros Hall. destruct (missing_keys config) as [|k l] eqn:E; [done|].
    assert (k ∈ missing_keys config) as [Hk Hv]%missing_keys_spec
      by (rewrite E; left).
    by rewrite (Hall k Hk) in Hv.
Qed.

Lemma unchanged_keys_nil config :
  unchanged_keys config = []
  ↔ ∀ k v, (k, v) ∈ PLACEHOLDER_VALUES → dict_get config k PyNone ≠ PyStr v.
Proof.
  split.
  - intros Hnil k v Hk Hv.
    assert (k ∈ unchanged_keys config) as Hin by (apply unchanged_keys_spec; eauto).
    rewrite Hnil in Hin. by apply elem_of_nil in Hin.
  - intros Hall. destruct (unchanged_keys config) as [|k l] eqn:E; [done|].
    assert (k ∈ unchanged_keys config) as [v [Hk Hv]]%unchanged_keys_spec
      by (rewrite E; left).
    by destruct (Hall k v Hk).
Qed.

Lemma nonempty_nil {A} (l : list A) : nonempty l = false ↔ l = [].
Proof. by destruct l. Qed.

Section StartupProperties.
Context {W : Type} (new_client : PyVal → PyVal → PyVal → PyVal → Exn + @Client W).

(** The block on a loaded configuration, by its two lists. *)
Lemma configure_loaded config :
  configure new_client (Loaded config)
  = if nonempty (missing_keys config) then
      mkStartup
        (mkGlobals
           (Some (u "Missing required config keys: "
                  ++ join (u ", ") (missing_keys config)
                  ++ u ". Please edit config.json."))
           None)
        (or_fallback PyNone)
    else if nonempty (unchanged_keys config) then
      mkStartup
        (mkGlobals
           (Some (u "Placeholder values detected in config.json for: "
                  ++ join (u ", ") (unchanged_keys config)
                  ++ u ". Please replace them with your real Duo credentials from the Duo Admin Panel."))
           None)
        (or_fallback PyNone)
    else
      match new_client (dict_get config (u "client_id") PyNone)
              (dict_get config (u "client_secret") PyNone)
              (dict_get config (u "api_hostname") PyNone)
              (dict_get config (u "redirect_uri") PyNone) with
      | inr client =>
          mkStartup (mkGlobals None (Some client))
            (or_fallback (dict_get config (u "flask_secret_key") PyNone))
      | inl e =>
          mkStartup
            (mkGlobals (Some (u "Failed to initialize Duo client: " ++ e)) None)
            (or_fallback (dict_get config (u "flask_secret_key") PyNone))
      end.
Proof. reflexivity. Qed.

(** X1.  However the block ends, exactly one of [config_error] and
    [duo_client] is set, and a [config_error] that is set is true as a
    condition: the guard [if config_error:] is passed with a client, and
    only then. *)
Theorem startup_error_xor_client file :
  let app := globals (configure new_client file) in
  (config_error app = None ↔ is_Some (duo_client app))
  ∧ (truthy (py_opt (config_error app)) = true ↔ duo_client app = None).
Proof.
  intros app. split; [apply configure_client|].
  pose proof (configure_client new_client file) as Hclient.
  pose proof (configure_error_truthy new_client file) as Htruthy.
  fold app in Hclient, Htruthy.
  destruct (config_error app) as [e|] eqn:He.
  - rewrite (Htruthy e eq_refl). split; [intros _|done].
    destruct (duo_client app) as [c|] eqn:Hc; [|done].
    assert (Some e = None) by (apply Hclient; eauto). done.
  - simpl. split; [done|]. intros Hnone.
    destruct (proj1 Hclient eq_refl) as [c Hc]. congruence.
Qed.

(** X2.  The application starts without error, with a given client, exactly
    when the file was read and parsed, every required key has a true value,
    no key still holds its placeholder, and the constructor returned that
    client on the four values of the configuration. *)
Theorem startup_ready_iff file client :
  globals (configure new_client file) = mkGlobals None (Some client)
  ↔ ∃ config,
      file = Loaded config
      ∧ (∀ k, k ∈ REQUIRED_KEYS → truthy (dict_get config k PyNone) = true)
      ∧ (∀ k v, (k, v) ∈ PLACEHOLDER_VALUES → dict_get config k PyNone ≠ PyStr v)
      ∧ new_client (dict_get config (u "client_id") PyNone)
          (dict_get config (u "client_secret") PyNone)
          (dict_get config (u "api_hostname") PyNone)
          (dict_get config (u "redirect_uri") PyNone)
        = inr client.
Proof.
  split.
  - destruct file as [| |e|config]; try done.
    rewrite configure_loaded.
    destruct (nonempty (missing_keys config)) eqn:Hm; [done|].
    destruct (nonempty (unchanged_keys config)) eqn:Hu; [done|].
    apply nonempty_nil in Hm. apply nonempty_nil in Hu.
    pose proof (proj1 (missing_keys_nil config) Hm).
    pose proof (proj1 (unchanged_keys_nil config) Hu).
    destruct (new_client _ _ _ _) as [e|c] eqn:Hc; [done|].
    simpl. intros [= ->]. by exists config.
  - intros (config & -> & Hm & Hu & Hc).
    rewrite configure_loaded.
    rewrite (proj2 (missing_keys_nil config) Hm).
    rewrite (proj2 (unchanged_keys_nil config) Hu).
    by rewrite Hc.
Qed.

(** X3.  A loaded configuration in which a required key has no true value
    ends in the missing-keys error, whatever placeholders it still holds and
    without the constructor of the client being consulted: the message lists,
    in the order of [REQUIRED_KEYS], exactly the required keys without true
    value; no client is made and the secret key is the fallback. *)
Theorem missing_keys_reported config k :
  k ∈ REQUIRED_KEYS →
  truthy (dict_get config k PyNone) = false →
  ∃ missing,
    configure new_client (Loaded config)
    = mkStartup
        (mkGlobals
           (Some (u "Missing required config keys: " ++ join (u ", ") missing
                  ++ u ". Please edit config.json."))
           None)
        (PyStr (u "fallback-for-error-display-only"))
    ∧ k ∈ missing
    ∧ sublist missing REQUIRED_KEYS
    ∧ ∀ k', k' ∈ missing
            ↔ k' ∈ REQUIRED_KEYS ∧ truthy (dict_get config k' PyNone) = false.
Proof.
  intros Hk Hv. exists (missing_keys config).
  assert (k ∈ missing_keys config) as Hin by by apply missing_keys_spec.
  split; [|split; [done|split]].
  - rewrite configure_loaded.
    destruct (missing_keys config); [by apply elem_of_nil in Hin|done].
  - apply sublist_filter.
  - apply missing_keys_spec.
Qed.

(** X4.  A loaded configuration whose required keys all have a true value,
    but in which a key still holds its placeholder, ends in the placeholder
    error: the message lists, in the order of [PLACEHOLDER_VALUES], exactly
    the keys that hold their placeholder; no client is made and the secret
    key is the fallback, not the configured one. *)
Theorem placeholders_reported config k v :
  (∀ k', k' ∈ REQUIRED_KEYS → truthy (dict_get config k' PyNone) = true) →
  (k, v) ∈ PLACEHOLDER_VALUES →
  dict_get config k PyNone = PyStr v →
  ∃ unchanged,
    configure new_client (Loaded config)
    = mkStartup
        (mkGlobals
           (Some (u "Placeholder values detected in config.json for: "
                  ++ join (u ", ") unchanged
                  ++ u ". Please replace them with your real Duo credentials from the Duo Admin Panel."))
           None)
        (PyStr (u "fallback-for-error-display-only"))
    ∧ k ∈ unchanged
    ∧ sublist unchanged (PLACEHOLDER_VALUES.*1)
    ∧ ∀ k', k' ∈ unchanged
            ↔ ∃ v', (k', v') ∈ PLACEHOLDER_VALUES
                    ∧ dict_get config k' PyNone = PyStr v'.
Proof.
  intros Hall Hk Hv. exists (unchanged_keys config).
  assert (k ∈ unchanged_keys config) as Hin by (apply unchanged_keys_spec; eauto).
  split; [|split; [done|split]].
  - rewrite configure_loaded. rewrite (proj2 (missing_keys_nil config) Hall). simpl.
    destruct (unchanged_keys config); [by apply elem_of_nil in Hin|done].
  - unfold unchanged_keys. apply fmap_sublist, sublist_filter.
  - apply unchanged_keys_spec.
Qed.

(** X5.  After the block [app.secret_key] is always set to a true value: the
    fallback, or the configured key; and it is the configured key whenever
    the configuration passed both validations, also when the constructor of
    the client then raised. *)
Theorem secret_key_always_set file :
  let key := secret_key (configure new_client file) in
  truthy key = true
  ∧ (key = PyStr (u "fallback-for-error-display-only")
     ∨ ∃ config, file = Loaded config
         ∧ key = dict_get config (u "flask_secret_key") PyNone)
  ∧ ∀ config,
      file = Loaded config →
      (∀ k, k ∈ REQUIRED_KEYS → truthy (dict_get config k PyNone) = true) →
      (∀ k v, (k, v) ∈ PLACEHOLDER_VALUES → dict_get config k PyNone ≠ PyStr v) →
      key = dict_get config (u "flask_secret_key") PyNone.
Proof.
  intros key.
  assert (∀ config,
            (∀ k, k ∈ REQUIRED_KEYS → truthy (dict_get config k PyNone) = true) →
            truthy (dict_get config (u "flask_secret_key") PyNone) = true
            ∧ or_fallback (dict_get config (u "flask_secret_key") PyNone)
              = dict_get config (u "flask_secret_key") PyNone) as Hkey.
  { intros config Hall.
    assert (truthy (dict_get config (u "flask_secret_key") PyNone) = true) as Hv.
    { apply Hall. unfold REQUIRED_KEYS. set_solver. }
    split; [done|]. by destruct (dict_get config (u "flask_secret_key") PyNone). }
  subst key. destruct file as [| |e|config]; try (split; [done|split; [by left|done]]).
  rewrite configure_loaded.
  destruct (nonempty (missing_keys config)) eqn:Hm.
  { split; [done|split; [by left|]]. intros ? [= <-] Hall _.
    by rewrite (proj2 (missing_keys_nil config) Hall) in Hm. }
  destruct (nonempty (unchanged_keys config)) eqn:Hu.
  { split; [done|split; [by left|]]. intros ? [= <-] _ Hall.
    by rewrite (proj2 (unchanged_keys_nil config) Hall) in Hu. }
  apply nonempty_nil in Hm.
  destruct (Hkey config (proj1 (missing_keys_nil config) Hm)) as [Hv Hor].
  destruct (new_client _ _ _ _); simpl; rewrite Hor.
  all: split; [done|split; [right; eauto|]]; by intros ? [= <-] _ _.
Qed.

End StartupProperties.

(** * Further properties of the views *)

Lemma rstrip_split (s : pystr) :
  ∃ q, s = rstrip s ++ q ∧ Forall (λ c, c ∈ WHITESPACE) q.
Proof.
  unfold rstrip. destruct (lstrip_split (reverse s)) as [q [Hq Hw]].
  exists (reverse q). split; [|by apply Forall_reverse].
  rewrite <- reverse_app, <- Hq. by rewrite reverse_involutive.
Qed.

(** [strip] takes whitespace off both ends, and leaves none there. *)
Lemma strip_split (s : pystr) :
  ∃ p q, s = p ++ strip s ++ q
         ∧ Forall (λ c, c ∈ WHITESPACE) p ∧ Forall (λ c, c ∈ WHITESPACE) q.
Proof.
  destruct (lstrip_split s) as [p [Hp Hwp]].
  destruct (rstrip_split (lstrip s)) as [q [Hq Hwq]].
  exists p, q. unfold strip. by rewrite <- Hq.
Qed.

Lemma strip_ends (s : pystr) :
  strip s ≠ [] →
  ∃ a b, (head (strip s) = Some a) ∧ (last (strip s) = Some b)
         ∧ (a ∉ WHITESPACE) ∧ (b ∉ WHITESPACE).
Proof.
  intros Hne. destruct (rstrip_split (lstrip s)) as [q [Hq _]].
  fold (strip s) in Hq.
  destruct (strip s) as [|a r] eqn:Hs; [done|]. exists a.
  assert (a ∉ WHITESPACE) as Ha.
  { apply (lstrip_head s a (r ++ q)). by rewrite Hq. }
  unfold strip, rstrip in Hs.
  destruct (lstrip (reverse (lstrip s))) as [|b t] eqn:Hl.
  { by rewrite reverse_nil in Hs. }
  exists b. apply lstrip_head in Hl as Hb.
  split; [done|]. split; [|done].
  rewrite <- Hs. rewrite reverse_cons. apply last_snoc.
Qed.

Section ViewProperties.
Context {W : Type} (str : PyVal → pystr) (app : @Globals W).

(** X6.  The views of [/] and [/dashboard] only read: on every request,
    session and configuration they return a response, leave the session as
    it was and make no call to the provider. *)
Theorem index_dashboard_read_only req s w :
  (∃ r, handle str app index_ep req s w = (inr r, mkState s w []))
  ∧ (∃ r, handle str app dashboard_ep req s w = (inr r, mkState s w [])).
Proof.
  split; run_view; repeat case_match; simpl in *; simplify_eq; eauto.
Qed.

(** X7.  With no configuration error, [/] and [/dashboard] never send the
    browser in a circle: on any session either [/] redirects to the dashboard
    and the dashboard renders the stored user and result, or the dashboard
    redirects to [/] and [/] renders the login form. *)
Theorem index_dashboard_no_loop req req' s w w' :
  truthy (py_opt (config_error app)) = false →
  (response_of str app index_ep req s w = inr (Redirect (u "/dashboard") 302)
   ∧ response_of str app dashboard_ep req' s w'
     = inr (Rendered "dashboard.html"
              [("user", default PyNone (s !! "authenticated_user"));
               ("auth_result", default PyNone (s !! "auth_result"))] 200))
  ∨ (response_of str app dashboard_ep req' s w' = inr (Redirect (u "/") 302)
     ∧ response_of str app index_ep req s w = inr (Rendered "login.html" [] 200)).
Proof.
  intros Hcfg. run_view. rewrite Hcfg. simpl.
  destruct (truthy (default PyNone (s !! "authenticated_user"))); simpl; auto.
Qed.

(** X8.  No view but [logout] touches a key of the session other than the
    four of the handshake. *)
Theorem views_keep_other_keys e req s w k :
  e ≠ logout_ep →
  k ∉ HANDSHAKE_KEYS →
  session_after str app e req s w !! k = s !! k.
Proof.
  intros He Hk. unfold HANDSHAKE_KEYS in Hk.
  apply not_elem_of_cons in Hk as [? Hk]. apply not_elem_of_cons in Hk as [? Hk].
  apply not_elem_of_cons in Hk as [? Hk]. apply not_elem_of_cons in Hk as [? _].
  destruct e; try done; run_view; repeat case_match; simpl in *; simplify_eq;
    by simplify_map_eq.
Qed.

(** X9.  The authenticated user of a session changes in two ways only: a
    logout, which empties the session, and a callback whose exchange with the
    provider succeeded, which sets it to the username of the pending login.
    No other request, and no callback without a successful exchange, sets or
    changes it. *)
Theorem authentication_needs_exchange e req s w :
  session_after str app e req s w !! "authenticated_user"
    ≠ s !! "authenticated_user" →
  (e = logout_ep ∧ session_after str app e req s w = ∅)
  ∨ (e = duo_callback_ep
     ∧ ∃ duo_code result,
         exchange_call duo_code (default PyNone (s !! "duo_username")) (inr result)
           ∈ calls_of str app e req s w
         ∧ session_after str app e req s w !! "authenticated_user"
           = Some (default PyNone (s !! "duo_username"))).
Proof.
  assert (∀ e', e' = index_ep ∨ e' = login_ep ∨ e' = dashboard_ep →
            session_after str app e' req s w !! "authenticated_user"
            = s !! "authenticated_user") as Hsame.
  { intros e' [-> | [-> | ->]]; run_view; repeat case_match; simpl in *;
      by simplify_map_eq. }
  destruct e.
  - intros Hne. destruct Hne. apply Hsame. auto.
  - intros Hne. destruct Hne. apply Hsame. auto.
  - intros Hne. right. split; [done|]. revert Hne.
    run_view. repeat case_match; simpl in *; simplify_eq;
      intros Hne; try done.
    eexists _, _. split; [by apply list_elem_of_singleton|by simplify_map_eq].
  - intros Hne. destruct Hne. apply Hsame. auto.
  - by left.
Qed.

(** X10.  When [login] redirects, it is with status 302 to the URL the
    provider made, after exactly three calls in order: a health check that
    passed, [generate_state], and [create_auth_url] on the stripped username
    and that very nonce; and the session holds that nonce and that username
    as the pending login. *)
Theorem login_redirect_binds_nonce req s w url status :
  response_of str app login_ep req s w = inr (Redirect url status) →
  let username := strip (default [] (multi_get (form req) (u "username"))) in
  ∃ state,
    status = 302%Z ∧ username ≠ []
    ∧ calls_of str app login_ep req s w
      = [health_check_call (inr ()); generate_state_call (inr state);
         create_auth_url_call username state (inr url)]
    ∧ session_after str app login_ep req s w
      = <["duo_username" := PyStr username]> (<["duo_state" := PyStr state]> s).
Proof.
  run_view. unfold redirect, render_template.
  repeat case_match; simpl in *; simplify_eq; intros Hr; simplify_eq.
  repeat match goal with x : () |- _ => destruct x end.
  eexists. repeat split; try done.
  intros Hempty. by rewrite Hempty in *.
Qed.

(** X11.  An exception leaves [login] in two ways only: raised by
    [generate_state], with the session still as it was; or raised by
    [create_auth_url], when the pending login has already been written to the
    session. *)
Theorem login_exception_escapes req s w e :
  response_of str app login_ep req s w = inl e →
  let username := strip (default [] (multi_get (form req) (u "username"))) in
  (calls_of str app login_ep req s w
   = [health_check_call (inr ()); generate_state_call (inl e)]
   ∧ session_after str app login_ep req s w = s)
  ∨ ∃ state,
      calls_of str app login_ep req s w
      = [health_check_call (inr ()); generate_state_call (inr state);
         create_auth_url_call username state (inl e)]
      ∧ session_after str app login_ep req s w
        = <["duo_username" := PyStr username]> (<["duo_state" := PyStr state]> s).
Proof.
  run_view. repeat case_match; simpl in *; simplify_eq; intros Hr; simplify_eq.
  all: repeat match goal with x : () |- _ => destruct x end.
  - by left.
  - right. by eexists.
Qed.

(** X12.  No view but [login] lets an exception escape: the others return
    a response on every request, whatever the provider does. *)
Theorem views_catch_exceptions e req s w :
  e ≠ login_ep → ∃ r, response_of str app e req s w = inr r.
Proof.
  intros He. destruct e; try done; run_view; repeat case_match; simpl in *;
    simplify_eq; eauto.
Qed.

(** X13.  The username a login stores is the submitted one without the
    whitespace around it: the submitted value is the stored one between two
    runs of whitespace, and the stored one is not empty and neither starts
    nor ends with a whitespace character. *)
Theorem login_stores_stripped_username req s w state :
  generate_state_call (inr state) ∈ calls_of str app login_ep req s w →
  ∃ stored p q a b,
    session_after str app login_ep req s w !! "duo_username" = Some (PyStr stored)
    ∧ default [] (multi_get (form req) (u "username")) = p ++ stored ++ q
    ∧ Forall (λ c, c ∈ WHITESPACE) p ∧ Forall (λ c, c ∈ WHITESPACE) q
    ∧ (head stored = Some a) ∧ (last stored = Some b)
    ∧ (a ∉ WHITESPACE) ∧ (b ∉ WHITESPACE).
Proof.
  intros Hin.
  assert (strip (default [] (multi_get (form req) (u "username"))) ≠ []) as Hne.
  { revert Hin. run_view. repeat case_match; simpl in *; simplify_eq;
      intros Hin; the_call Hin. all: intros Hempty; by rewrite Hempty in *. }
  destruct (strip_split (default [] (multi_get (form req) (u "username"))))
    as (p & q & Hsplit & Hp & Hq).
  destruct (strip_ends _ Hne) as (a & b & Ha & Hb & ? & ?).
  eexists _, p, q, a, b. rewrite (login_writes_pending _ _ _ _ _ _ Hin).
  by simplify_map_eq.
Qed.

(** Without nonce in the session, a callback with both parameters is refused. *)
Lemma duo_callback_without_nonce req s w duo_code state :
  truthy (py_opt (config_error app)) = false →
  multi_get (args req) (u "duo_code") = Some duo_code → duo_code ≠ [] →
  multi_get (args req) (u "state") = Some state → state ≠ [] →
  s !! "duo_state" ≠ Some (PyStr state) →
  handle str app duo_callback_ep req s w
  = (inr (Rendered "error.html" [("error", PyStr STATE_MISMATCH)] 403),
     mkState s w []).
Proof.
  intros Hcfg Hcode Hc Hstate Hs Hsaved. run_view.
  rewrite Hcfg, Hcode, Hstate.
  destruct duo_code as [|c code]; [done|]. destruct state as [|a state]; [done|].
  cbn [py_opt truthy negb orb session provider calls].
  destruct (s !! "duo_state") as [v|]; [|reflexivity].
  cbn [default from_option id].
  destruct (py_ne (Some (a :: state)) v) eqn:Hne; [by rewrite orb_true_r|].
  apply py_ne_spec in Hne as ->. done.
Qed.

(** X14.  With no configuration error, the callback answers 400 exactly
    when [duo_code] or [state] is absent or empty, and 403 exactly when both
    are given and the session does not hold the [state] received as its
    nonce. *)
Theorem duo_callback_status req s w :
  truthy (py_opt (config_error app)) = false →
  let duo_code := default [] (multi_get (args req) (u "duo_code")) in
  let state := default [] (multi_get (args req) (u "state")) in
  let answers status :=
    ∃ r, response_of str app duo_callback_ep req s w = inr r
         ∧ status_code r = status in
  (answers 400%Z ↔ duo_code = [] ∨ state = [])
  ∧ (answers 403%Z
     ↔ duo_code ≠ [] ∧ state ≠ [] ∧ s !! "duo_state" ≠ Some (PyStr state)).
Proof.
  intros Hcfg duo_code state answers. subst duo_code state answers.
  assert (∀ (r : Response) (P : Prop) (code : Z),
            (status_code r = code ↔ P) →
            (∃ r', inr r = @inr pystr Response r' ∧ status_code r' = code) ↔ P)
    as Hone.
  { intros r P code HP. rewrite <- HP. split; [by intros (? & [= <-] & ?)|eauto]. }
  assert (∀ r : Response,
            response_of str app duo_callback_ep req s w = inr r →
            status_code r = 400%Z →
            ∀ P Q : Prop, P → ¬ Q →
            ((∃ r', response_of str app duo_callback_ep req s w = inr r'
                    ∧ status_code r' = 400%Z) ↔ P)
            ∧ ((∃ r', response_of str app duo_callback_ep req s w = inr r'
                      ∧ status_code r' = 403%Z) ↔ Q)) as Hmissing.
  { intros r -> Hr P Q HP HQ. split; apply Hone; rewrite Hr; by split. }
  destruct (multi_get (args req) (u "duo_code")) as [[|c code]|] eqn:Hcode.
  - eapply Hmissing; [run_view; by rewrite Hcfg, Hcode|done|by left|by intros [? _]].
  - destruct (multi_get (args req) (u "state")) as [[|a state]|] eqn:Hstate.
    + eapply Hmissing;
        [run_view; by rewrite Hcfg, Hcode, Hstate|done|by right|by intros (_ & ? & _)].
    + simpl.
      assert (s !! "duo_state" = Some (PyStr (a :: state))
              ∨ s !! "duo_state" ≠ Some (PyStr (a :: state))) as [Hs|Hs].
      { destruct (s !! "duo_state") as [v|]; [|by right].
        destruct (py_ne (Some (a :: state)) v) eqn:Hne.
        - right. intros [= ->]. by rewrite (proj2 (py_ne_spec _ _) eq_refl) in Hne.
        - left. by apply py_ne_spec in Hne as ->. }
      * run_view. rewrite Hcfg, Hcode, Hstate. simpl. rewrite Hs. simpl.
        rewrite bool_decide_eq_true_2 by done. simpl.
        repeat case_match; simpl in *; simplify_eq.
        all: split; apply Hone; simpl; split; try done; try by intros [|].
        all: by intros (_ & _ & ?).
      * unfold response_of.
        rewrite (duo_callback_without_nonce req s w (c :: code) (a :: state)) by done.
        simpl. split; apply Hone; simpl; split; try done. by intros [|].
    + eapply Hmissing;
        [run_view; by rewrite Hcfg, Hcode, Hstate|done|by right|by intros (_ & ? & _)].
  - eapply Hmissing; [run_view; by rewrite Hcfg, Hcode|done|by left|by intros [? _]].
Qed.

(** X15.  The calls a view makes to the provider: none from [/],
    [/dashboard] and [/logout]; at most one from the callback, the exchange;
    from [login] a prefix of health check, [generate_state],
    [create_auth_url], cut at the first call that raises, and never an
    exchange. *)
Theorem provider_call_discipline e req s w :
  let log := calls_of str app e req s w in
  match e with
  | index_ep | dashboard_ep | logout_ep => log = []
  | duo_callback_ep =>
      log = [] ∨ ∃ duo_code username r, log = [exchange_call duo_code username r]
  | login_ep =>
      log = []
      ∨ (∃ e, log = [health_check_call (inl e)])
      ∨ (∃ e, log = [health_check_call (inr ()); generate_state_call (inl e)])
      ∨ (∃ username state r,
           log = [health_check_call (inr ()); generate_state_call (inr state);
                  create_auth_url_call username state r])
  end.
Proof.
  destruct e; run_view; repeat case_match; simpl in *; simplify_eq.
  all: repeat match goal with x : () |- _ => destruct x end.
  all: eauto 10.
Qed.

(** X16.  A nonce is used once: after a callback whose exchange succeeded,
    the same request made again is answered 403, without any call to the
    provider and with the authenticated session left in place. *)
Theorem duo_callback_replay_refused req s w w' duo_code username result :
  exchange_call duo_code username (inr result)
    ∈ calls_of str app duo_callback_ep req s w →
  let s' := session_after str app duo_callback_ep req s w in
  handle str app duo_callback_ep req s' w'
  = (inr (Rendered "error.html" [("error", PyStr STATE_MISMATCH)] 403),
     mkState s' w' []).
Proof.
  intros Hin s'. subst s'.
  rewrite (duo_callback_promotes _ _ _ _ _ _ _ _ Hin).
  apply exchange_call_inv in Hin
    as (code & state & Hcfg & Hcode & _ & Hc & Hstate & Hs & _).
  apply (duo_callback_without_nonce _ _ _ code state); try done.
  by simplify_map_eq.
Qed.

(** X17.  A failed exchange does not use up the nonce: the same callback,
    made again, passes the checks and reaches the exchange again, with the
    same code and username. *)
Theorem duo_callback_retry_after_failure req s w w' duo_code username e :
  exchange_call duo_code username (inl e)
    ∈ calls_of str app duo_callback_ep req s w →
  ∃ r, calls_of str app duo_callback_ep req
         (session_after str app duo_callback_ep req s w) w'
       = [exchange_call duo_code username r].
Proof.
  intros Hin.
  assert (session_after str app duo_callback_ep req s w = s) as ->.
  { revert Hin. run_view. repeat case_match; simpl in *; simplify_eq;
      intros Hin; the_call Hin; done. }
  assert (is_Some (duo_client app)) as [client Hclient].
  { revert Hin. run_view. repeat case_match; simpl in *; simplify_eq;
      intros Hin; the_call Hin; eauto. }
  apply exchange_call_inv in Hin
    as (code & state & Hcfg & Hcode & -> & Hc & Hstate & Hs & Hsaved & -> & _).
  eexists. by apply (duo_callback_exchanges _ _ _ _ _ client code state).
Qed.

(** X18.  A login that writes a pending login (no configuration error, a
    username that is not blank, a health check that passes, a nonce from
    [generate_state]) replaces the one before: a callback that then carries
    any other state than the new nonce, the old nonce included, or none, is
    refused without a call to the provider and with the session left as it
    is, with 400 when [duo_code] or [state] is absent or empty and with 403
    otherwise. *)
Theorem login_invalidates_old_nonce req s w client w1 state w2 req' w' :
  truthy (py_opt (config_error app)) = false →
  duo_client app = Some client →
  strip (default [] (multi_get (form req) (u "username"))) ≠ [] →
  health_check client w = (inr (), w1) →
  generate_state client w1 = (inr state, w2) →
  multi_get (args req') (u "state") ≠ Some state →
  let s' := session_after str app login_ep req s w in
  let duo_code := default [] (multi_get (args req') (u "duo_code")) in
  let carried := default [] (multi_get (args req') (u "state")) in
  (duo_code = [] ∨ carried = [] →
   handle str app duo_callback_ep req' s' w'
   = (inr (Rendered "error.html" [("error", PyStr MISSING_PARAMETERS)] 400),
      mkState s' w' []))
  ∧ (duo_code ≠ [] → carried ≠ [] →
     handle str app duo_callback_ep req' s' w'
     = (inr (Rendered "error.html" [("error", PyStr STATE_MISMATCH)] 403),
        mkState s' w' [])).
Proof.
  intros Hcfg Hcl Hname Hhealth Hstate Hother s' duo_code carried.
  subst s' duo_code carried. split.
  - intros Hblank. run_view. rewrite Hcfg.
    destruct (multi_get (args req') (u "duo_code")) as [[|c code]|];
      [reflexivity| |reflexivity].
    destruct (multi_get (args req') (u "state")) as [[|a old]|];
      [reflexivity| |reflexivity].
    by destruct Hblank.
  - intros Hcode Hcarried.
    destruct (multi_get (args req') (u "duo_code")) as [code|] eqn:Ecode; [|done].
    destruct (multi_get (args req') (u "state")) as [old|] eqn:Eold; [|done].
    simpl in Hcode, Hcarried.
    apply (duo_callback_without_nonce _ _ _ code old); try done.
    rewrite (login_generates_state str app req s w client w1 state w2) by done.
    simplify_map_eq. intros [= ->]. done.
Qed.

(** X19.  What the callback stores the dashboard shows: after a successful
    exchange on a reachable session the dashboard renders, with status 200,
    the username of the pending login and the stored result, and [/]
    redirects to the dashboard. *)
Theorem dashboard_shows_exchange_result req s w duo_code username result req' w' :
  exchange_call duo_code username (inr result)
    ∈ calls_of str app duo_callback_ep req s w →
  reachable str app s →
  let s' := session_after str app duo_callback_ep req s w in
  handle str app dashboard_ep req' s' w'
  = (inr (Rendered "dashboard.html"
            [("user", username); ("auth_result", auth_result_of str result)] 200),
     mkState s' w' [])
  ∧ response_of str app index_ep req' s' w' = inr (Redirect (u "/dashboard") 302).
Proof.
  intros Hin Hs s'. subst s'.
  rewrite (duo_callback_promotes _ _ _ _ _ _ _ _ Hin).
  apply reachable_wf in Hs as [Hp _].
  apply exchange_call_inv in Hin
    as (code & state & Hcfg & _ & _ & _ & _ & _ & Hsaved & -> & _).
  destruct Hp as [[Hnone _] | (? & name & _ & Hname & Hne)]; [congruence|].
  rewrite Hname. destruct name as [|c name]; [done|].
  run_view. rewrite Hcfg. by simplify_map_eq.
Qed.

(** The two keys of an authenticated session are written and cleared
    together. *)
Lemma auth_keys_handle e req s w :
  (is_Some (s !! "auth_result") ↔ is_Some (s !! "authenticated_user")) →
  is_Some (session_after str app e req s w !! "auth_result")
  ↔ is_Some (session_after str app e req s w !! "authenticated_user").
Proof.
  intros Hs. destruct e; run_view; repeat case_match; simpl in *; simplify_eq;
    by simplify_map_eq.
Qed.

(** X20.  In every reachable session [auth_result] is present exactly when
    [authenticated_user] is, an authenticated user is a string that is not
    empty, and so, with no configuration error, the dashboard renders for
    every session that has one. *)
Theorem authenticated_session_wf s :
  reachable str app s →
  (is_Some (s !! "auth_result") ↔ is_Some (s !! "authenticated_user"))
  ∧ (∀ v, s !! "authenticated_user" = Some v →
          ∃ username, v = PyStr username ∧ username ≠ [])
  ∧ (truthy (py_opt (config_error app)) = false →
     is_Some (s !! "authenticated_user") →
     ∀ req w, ∃ context,
       response_of str app dashboard_ep req s w
       = inr (Rendered "dashboard.html" context 200)).
Proof.
  intros Hs. split; [|split].
  - induction Hs as [|e req s w _ IH]; [|by apply auth_keys_handle].
    rewrite !lookup_empty. split; by intros [? ?].
  - by apply reachable_wf in Hs as [_ Ha].
  - intros Hcfg [v Hv] req w. apply reachable_wf in Hs as [_ Ha].
    destruct (Ha v Hv) as ([|c name] & -> & Hne); [done|].
    run_view. rewrite Hcfg. simpl. rewrite Hv. simpl. eauto.
Qed.

(** X21.  A logout cancels a handshake under way: with no configuration
    error, a callback that arrives after it, whatever nonce it carries, is
    answered 403 on the empty session, without any call to the provider. *)
Theorem logout_cancels_handshake req s w req' w' duo_code state :
  truthy (py_opt (config_error app)) = false →
  multi_get (args req') (u "duo_code") = Some duo_code → duo_code ≠ [] →
  multi_get (args req') (u "state") = Some state → state ≠ [] →
  handle str app duo_callback_ep req' (session_after str app logout_ep req s w) w'
  = (inr (Rendered "error.html" [("error", PyStr STATE_MISMATCH)] 403),
     mkState ∅ w' []).
Proof.
  intros Hcfg Hcode Hc Hstate Hs.
  change (session_after str app logout_ep req s w) with (∅ : Session).
  by apply (duo_callback_without_nonce _ _ _ duo_code state).
Qed.

End ViewProperties.

(** * Further examples *)

Lemma startup_ready_iff_witness :
  globals (configure stub_new_client (Loaded complete_config))
  = mkGlobals None (Some (stub_client (inr ()) (u "nonce-1") (inr ALLOW))).
Proof.
  apply (startup_ready_iff stub_new_client (Loaded complete_config)).
  exists complete_config. split; [reflexivity|]. split; [|split; [|reflexivity]].
  - intros k Hk.
    repeat (apply elem_of_cons in Hk as [->|Hk]; [reflexivity|]).
    by apply elem_of_nil in Hk.
  - intros k v Hk.
    repeat (apply elem_of_cons in Hk as [[= -> ->]|Hk];
            [intros E; vm_compute in E; discriminate E|]).
    by apply elem_of_nil in Hk.
Defined.

Lemma missing_keys_reported_witness :
  truthy (dict_get incomplete_config (u "client_secret") PyNone) = false
  ∧ config_error (globals (configure stub_new_client (Loaded incomplete_config)))
    = Some (u "Missing required config keys: client_secret, redirect_uri. Please edit config.json.")
  ∧ duo_client (globals (configure stub_new_client (Loaded incomplete_config))) = None
  ∧ secret_key (configure stub_new_client (Loaded incomplete_config))
    = PyStr (u "fallback-for-error-display-only").
Proof.
  split; [reflexivity|]. split; [reflexivity|].
  destruct (missing_keys_reported stub_new_client incomplete_config (u "client_secret"))
    as (missing & Hstartup & _).
  - right. left.
  - reflexivity.
  - rewrite Hstartup. split; reflexivity.
Defined.

Lemma placeholders_reported_witness :
  dict_get template_config (u "client_id") PyNone = PyStr (u "DIXXXXXXXXXXXXXXXXXX")
  ∧ config_error (globals (configure stub_new_client (Loaded template_config)))
    = Some (u "Placeholder values detected in config.json for: client_id, flask_secret_key. Please replace them with your real Duo credentials from the Duo Admin Panel.")
  ∧ duo_client (globals (configure stub_new_client (Loaded template_config))) = None
  ∧ secret_key (configure stub_new_client (Loaded template_config))
    = PyStr (u "fallback-for-error-display-only").
Proof.
  split; [reflexivity|]. split; [reflexivity|].
  destruct (placeholders_reported stub_new_client template_config
              (u "client_id") (u "DIXXXXXXXXXXXXXXXXXX"))
    as (unchanged & Hstartup & _).
  - intros k Hk.
    repeat (apply elem_of_cons in Hk as [->|Hk]; [reflexivity|]).
    by apply elem_of_nil in Hk.
  - left.
  - reflexivity.
  - rewrite Hstartup. split; reflexivity.
Defined.

Lemma index_dashboard_no_loop_witness :
  (response_of stub_str accepting index_ep (plain_request "GET")
     alice_authenticated tt
   = inr (Redirect (u "/dashboard") 302)
   ∧ response_of stub_str accepting dashboard_ep (plain_request "GET")
       alice_authenticated tt
     = inr (Rendered "dashboard.html"
              [("user", PyStr (u "alice"));
               ("auth_result", PyDict [(u "result", PyStr (u "allow"))])] 200))
  ∨ (response_of stub_str accepting dashboard_ep (plain_request "GET")
       alice_authenticated tt
     = inr (Redirect (u "/") 302)
     ∧ response_of stub_str accepting index_ep (plain_request "GET")
         alice_authenticated tt
       = inr (Rendered "login.html" [] 200)).
Proof.
  apply (index_dashboard_no_loop stub_str accepting (plain_request "GET")
           (plain_request "GET") alice_authenticated tt tt).
  reflexivity.
Defined.

Lemma views_keep_other_keys_witness :
  session_after stub_str accepting login_ep (login_request (u "alice"))
    (<["_permanent" := PyBool true]> ∅) tt !! "_permanent"
  = Some (PyBool true).
Proof.
  etrans.
  - apply (views_keep_other_keys stub_str accepting login_ep
             (login_request (u "alice")) (<["_permanent" := PyBool true]> ∅) tt
             "_permanent").
    + discriminate.
    + intros Hk.
      repeat (apply elem_of_cons in Hk as [Hk|Hk]; [discriminate Hk|]).
      by apply elem_of_nil in Hk.
  - reflexivity.
Defined.

Lemma authentication_needs_exchange_witness :
  ∃ duo_code result,
    exchange_call duo_code (PyStr (u "alice")) (inr result)
      ∈ calls_of stub_str accepting duo_callback_ep alice_callback alice_pending tt
    ∧ session_after stub_str accepting duo_callback_ep alice_callback alice_pending tt
        !! "authenticated_user"
      = Some (PyStr (u "alice")).
Proof.
  destruct (authentication_needs_exchange stub_str accepting duo_callback_ep
              alice_callback alice_pending tt) as [[Hlogout _]|[_ Hexchange]].
  - intros Hsame. vm_compute in Hsame. discriminate Hsame.
  - discriminate Hlogout.
  - exact Hexchange.
Defined.

Lemma login_redirect_binds_nonce_witness :
  ∃ state,
    calls_of stub_str accepting login_ep (login_request (u " alice ")) ∅ tt
    = [health_check_call (inr ()); generate_state_call (inr state);
       create_auth_url_call (u "alice") state
         (inr (u "https://duo.example/oauth/v1/authorize?state=nonce-1"))]
    ∧ session_after stub_str accepting login_ep (login_request (u " alice ")) ∅ tt
      = pending state (u "alice").
Proof.
  destruct (login_redirect_binds_nonce stub_str accepting
              (login_request (u " alice ")) ∅ tt
              (u "https://duo.example/oauth/v1/authorize?state=nonce-1") 302)
    as (state & _ & _ & Hcalls & Hsession).
  - reflexivity.
  - exists state. split; [exact Hcalls | exact Hsession].
Defined.

Lemma login_exception_escapes_witness :
  (calls_of stub_str (flaky (inr (u "nonce-1")) (inl (u "state is too short")))
     login_ep (login_request (u "alice")) ∅ tt
   = [health_check_call (inr ());
      generate_state_call (inl (u "state is too short"))]
   ∧ session_after stub_str (flaky (inr (u "nonce-1")) (inl (u "state is too short")))
       login_ep (login_request (u "alice")) ∅ tt
     = ∅)
  ∨ ∃ state,
      calls_of stub_str (flaky (inr (u "nonce-1")) (inl (u "state is too short")))
        login_ep (login_request (u "alice")) ∅ tt
      = [health_check_call (inr ()); generate_state_call (inr state);
         create_auth_url_call (u "alice") state (inl (u "state is too short"))]
      ∧ session_after stub_str
          (flaky (inr (u "nonce-1")) (inl (u "state is too short")))
          login_ep (login_request (u "alice")) ∅ tt
        = pending state (u "alice").
Proof.
  apply (login_exception_escapes stub_str
           (flaky (inr (u "nonce-1")) (inl (u "state is too short")))
           (login_request (u "alice")) ∅ tt (u "state is too short")).
  reflexivity.
Defined.

Lemma views_catch_exceptions_witness :
  ∃ r, response_of stub_str refusing duo_callback_ep alice_callback alice_pending tt
       = inr r.
Proof.
  apply (views_catch_exceptions stub_str refusing duo_callback_ep
           alice_callback alice_pending tt).
  discriminate.
Defined.

Lemma login_stores_stripped_username_witness :
  ∃ stored p q a b,
    session_after stub_str accepting login_ep (login_request (u " alice ")) ∅ tt
      !! "duo_username" = Some (PyStr stored)
    ∧ u " alice " = p ++ stored ++ q
    ∧ Forall (λ c, c ∈ WHITESPACE) p ∧ Forall (λ c, c ∈ WHITESPACE) q
    ∧ (head stored = Some a) ∧ (last stored = Some b)
    ∧ (a ∉ WHITESPACE) ∧ (b ∉ WHITESPACE).
Proof.
  apply (login_stores_stripped_username stub_str accepting
           (login_request (u " alice ")) ∅ tt (u "nonce-1")).
  vm_compute. right. left.
Defined.

Lemma duo_callback_status_witness :
  (∃ r, response_of stub_str accepting duo_callback_ep
          (callback_request (u "") (u "nonce-1")) alice_pending tt = inr r
        ∧ status_code r = 400%Z)
  ∧ (∃ r, response_of stub_str accepting duo_callback_ep
            (callback_request (u "ABC") (u "WRONG")) alice_pending tt = inr r
          ∧ status_code r = 403%Z).
Proof.
  split.
  - destruct (duo_callback_status stub_str accepting
                (callback_request (u "") (u "nonce-1")) alice_pending tt)
      as [Hmissing _]; [reflexivity|].
    apply Hmissing. left. reflexivity.
  - destruct (duo_callback_status stub_str accepting
                (callback_request (u "ABC") (u "WRONG")) alice_pending tt)
      as [_ Hmismatch]; [reflexivity|].
    apply Hmismatch. split; [discriminate|]. split; [discriminate|].
    intros Hsame. vm_compute in Hsame. discriminate Hsame.
Defined.

Lemma duo_callback_replay_refused_witness :
  handle stub_str accepting duo_callback_ep alice_callback alice_authenticated tt
  = (inr (Rendered "error.html" [("error", PyStr STATE_MISMATCH)] 403),
     mkState alice_authenticated tt []).
Proof.
  apply (duo_callback_replay_refused stub_str accepting alice_callback
           alice_pending tt tt (PyStr (u "ABC")) (PyStr (u "alice")) ALLOW).
  vm_compute. constructor.
Defined.

Lemma duo_callback_retry_after_failure_witness :
  ∃ r, calls_of stub_str refusing duo_callback_ep alice_callback
         (session_after stub_str refusing duo_callback_ep alice_callback
            alice_pending tt) tt
       = [exchange_call (PyStr (u "ABC")) (PyStr (u "alice")) r].
Proof.
  apply (duo_callback_retry_after_failure stub_str refusing alice_callback
           alice_pending tt tt (PyStr (u "ABC")) (PyStr (u "alice"))
           (u "invalid_grant")).
  vm_compute. constructor.
Defined.

Lemma login_invalidates_old_nonce_witness :
  handle stub_str accepting duo_callback_ep
    (callback_request (u "ABC") (u "nonce-0"))
    (session_after stub_str accepting login_ep (login_request (u "alice"))
       (pending (u "nonce-0") (u "alice")) tt) tt
  = (inr (Rendered "error.html" [("error", PyStr STATE_MISMATCH)] 403),
     mkState alice_pending tt [])
  ∧ handle stub_str accepting duo_callback_ep (plain_request "GET")
      (session_after stub_str accepting login_ep (login_request (u "alice"))
         (pending (u "nonce-0") (u "alice")) tt) tt
    = (inr (Rendered "error.html" [("error", PyStr MISSING_PARAMETERS)] 400),
       mkState alice_pending tt []).
Proof.
  split.
  - destruct (login_invalidates_old_nonce stub_str accepting
                (login_request (u "alice")) (pending (u "nonce-0") (u "alice")) tt
                (stub_client (inr ()) (u "nonce-1") (inr ALLOW)) tt (u "nonce-1") tt
                (callback_request (u "ABC") (u "nonce-0")) tt)
      as [_ Hmismatch].
    + reflexivity.
    + reflexivity.
    + discriminate.
    + reflexivity.
    + reflexivity.
    + discriminate.
    + etrans; [apply Hmismatch; discriminate|reflexivity].
  - destruct (login_invalidates_old_nonce stub_str accepting
                (login_request (u "alice")) (pending (u "nonce-0") (u "alice")) tt
                (stub_client (inr ()) (u "nonce-1") (inr ALLOW)) tt (u "nonce-1") tt
                (plain_request "GET") tt)
      as [Hmissing _].
    + reflexivity.
    + reflexivity.
    + discriminate.
    + reflexivity.
    + reflexivity.
    + discriminate.
    + etrans; [apply Hmissing; by left|reflexivity].
Defined.

Lemma dashboard_shows_exchange_result_witness :
  handle stub_str accepting dashboard_ep (plain_request "GET") alice_authenticated tt
  = (inr (Rendered "dashboard.html"
            [("user", PyStr (u "alice"));
             ("auth_result", PyDict [(u "result", PyStr (u "allow"))])] 200),
     mkState alice_authenticated tt [])
  ∧ response_of stub_str accepting index_ep (plain_request "GET")
      alice_authenticated tt
    = inr (Redirect (u "/dashboard") 302).
Proof.
  apply (dashboard_shows_exchange_result stub_str accepting alice_callback
           alice_pending tt (PyStr (u "ABC")) (PyStr (u "alice")) ALLOW
           (plain_request "GET") tt).
  - vm_compute. constructor.
  - apply (reachable_handle stub_str accepting login_ep
             (login_request (u "alice")) ∅ tt), reachable_empty.
Defined.

Lemma authenticated_session_wf_witness :
  (is_Some (alice_authenticated !! "auth_result")
   ↔ is_Some (alice_authenticated !! "authenticated_user"))
  ∧ ∃ context,
      response_of stub_str accepting dashboard_ep (plain_request "GET")
        alice_authenticated tt
      = inr (Rendered "dashboard.html" context 200).
Proof.
  destruct (authenticated_session_wf stub_str accepting alice_authenticated)
    as (Hkeys & _ & Hdashboard).
  - apply (reachable_handle stub_str accepting duo_callback_ep alice_callback
             alice_pending tt).
    apply (reachable_handle stub_str accepting login_ep
             (login_request (u "alice")) ∅ tt), reachable_empty.
  - split; [exact Hkeys|].
    apply Hdashboard; [reflexivity|]. by eexists.
Defined.

Lemma logout_cancels_handshake_witness :
  handle stub_str accepting duo_callback_ep alice_callback
    (session_after stub_str accepting logout_ep (plain_request "POST")
       alice_pending tt) tt
  = (inr (Rendered "error.html" [("error", PyStr STATE_MISMATCH)] 403),
     mkState ∅ tt []).
Proof.
  apply (logout_cancels_handshake stub_str accepting (plain_request "POST")
           alice_pending tt alice_callback tt (u "ABC") (u "nonce-1")).
  - reflexivity.
  - reflexivity.
  - discriminate.
  - reflexivity.
  - discriminate.
Defined.
